(** * Guestbook: a shallow embedding of [main.py] and its properties

    The application keeps a flat table of messages, sorts them by the
    timestamp string written at insertion time and renders them as an
    HTML fragment.  The development follows the layout of the source:

    - [Py]        the pieces of the Python runtime the program calls
                  ([datetime.strftime], [datetime.strptime], [sorted]);
    - [Html]      the element trees built by [Div], [Span], ... and
                  their serialisation;
    - [Store]     the message table behind [fast_app], the rows a scan
                  of it returns and their subscript;
    - [Guestbook] the functions and handlers of [main.py];
    - the theorems, one block per property. *)

From Stdlib Require Import ZArith List String Ascii Bool Lia.
From Stdlib Require Import Permutation Sorted.
From Stdlib Require Import Numbers.DecimalString.
Import ListNotations.

Set Warnings "-register-all".

Open Scope string_scope.
Open Scope Z_scope.

(* ================================================================== *)
(** * Exceptions *)

Inductive exn : Type :=
| ValueError (msg : string)
| TypeError (msg : string).

Inductive result (A : Type) : Type :=
| Ok (a : A)
| Raise (e : exn).

Arguments Ok {A} a.
Arguments Raise {A} e.

Definition bind {A B : Type} (r : result A) (k : A -> result B) : result B :=
  match r with
  | Ok a => k a
  | Raise e => Raise e
  end.

Notation "x <- r ;; k" := (bind r (fun x => k))
  (at level 61, r at next level, right associativity).

Definition is_ok {A : Type} (r : result A) : bool :=
  match r with Ok _ => true | Raise _ => false end.

(** [[f(x) for x in l]] for an [f] that may raise: elements are visited
    in order and the first exception aborts the whole comprehension. *)
Fixpoint map_result {A B : Type} (f : A -> result B) (l : list A)
  : result (list B) :=
  match l with
  | [] => Ok []
  | x :: tl =>
      y <- f x ;;
      ys <- map_result f tl ;;
      Ok (y :: ys)
  end.

(* ================================================================== *)
(** * Constants of [main.py] *)

Definition MAX_NAME_CHAR : Z := 15.
Definition MAX_MESSAGE_CHAR : Z := 50.
Definition TIMESTAMP_FMT : string := "%Y-%m-%d %I:%M:%S %p PST".

(* ================================================================== *)
(** * The Python runtime used by the program *)

Module Py.

(** ** Characters *)

Definition ord (c : ascii) : Z := Z.of_N (N_of_ascii c).
Definition chr (z : Z) : ascii := ascii_of_N (Z.to_N z).

Definition in_range (lo hi c : ascii) : bool :=
  (ord lo <=? ord c) && (ord c <=? ord hi).

Definition is_digit (c : ascii) : bool := in_range "0" "9" c.

(** The blanks of a format: tab, LF, VT, FF, CR, the four separators
    0x1c-0x1f and the space. *)
Definition is_space (c : ascii) : bool :=
  ((9 <=? ord c) && (ord c <=? 13)) || ((28 <=? ord c) && (ord c <=? 32)).

Definition digit_char (k : Z) : ascii := chr (48 + k).

Definition zfill2 (n : Z) : string :=
  String (digit_char (n / 10)) (String (digit_char (n mod 10)) EmptyString).

Definition zfill4 (n : Z) : string :=
  String (digit_char (n / 1000))
    (String (digit_char (n / 100 mod 10)) (zfill2 (n mod 100))).

(** [str(n)] and [len(l)]. *)
Definition str (n : Z) : string := NilEmpty.string_of_int (Z.to_int n).

Definition len {A : Type} (l : list A) : Z := Z.of_nat (List.length l).

(** ** Text

    A [str] is held as its UTF-8 bytes; [strptime] matches its code
    points.  Bytes that are not UTF-8 stand for no text. *)

Definition continuation (c : ascii) : option Z :=
  if (128 <=? ord c) && (ord c <=? 191) then Some (ord c - 128) else None.

Fixpoint decode_utf8 (s : string) : option (list Z) :=
  match s with
  | EmptyString => Some []
  | String b0 s1 =>
      if ord b0 <? 128 then option_map (cons (ord b0)) (decode_utf8 s1)
      else
        match s1 with
        | EmptyString => None
        | String b1 s2 =>
            match continuation b1 with
            | None => None
            | Some c1 =>
                if (192 <=? ord b0) && (ord b0 <? 224) then
                  option_map (cons ((ord b0 - 192) * 64 + c1)) (decode_utf8 s2)
                else
                  match s2 with
                  | EmptyString => None
                  | String b2 s3 =>
                      match continuation b2 with
                      | None => None
                      | Some c2 =>
                          if (224 <=? ord b0) && (ord b0 <? 240) then
                            option_map
                              (cons (((ord b0 - 224) * 64 + c1) * 64 + c2))
                              (decode_utf8 s3)
                          else
                            match s3 with
                            | EmptyString => None
                            | String b3 s4 =>
                                match continuation b3 with
                                | None => None
                                | Some c3 =>
                                    if (240 <=? ord b0) && (ord b0 <? 248) then
                                      option_map
                                        (cons ((((ord b0 - 240) * 64 + c1) * 64
                                                + c2) * 64 + c3))
                                        (decode_utf8 s4)
                                    else None
                                end
                            end
                      end
                  end
            end
        end
  end.

(** The decimal digits ([\d], and what [int] reads): every script has
    its ten digits in a row; the list gives the code point of each
    zero (Unicode 15). *)
Definition decimal_zeros : list Z :=
  [48; 1632; 1776; 1984; 2406; 2534; 2662; 2790; 2918; 3046; 3174; 3302;
   3430; 3558; 3664; 3792; 3872; 4160; 4240; 6112; 6160; 6470; 6608; 6784;
   6800; 6992; 7088; 7232; 7248; 42528; 43216; 43264; 43472; 43504; 43600;
   44016; 65296; 66720; 68912; 69734; 69872; 69942; 70096; 70384; 70736;
   70864; 71248; 71360; 71472; 71904; 72016; 72784; 73040; 73120; 73552;
   92768; 92864; 93008; 120782; 120792; 120802; 120812; 120822; 123200;
   123632; 124144; 125264; 130032].

Fixpoint decimal_in (zeros : list Z) (x : Z) : option Z :=
  match zeros with
  | [] => None
  | z :: tl =>
      if (z <=? x) && (x <=? z + 9) then Some (x - z) else decimal_in tl x
  end.

Definition decimal_value (x : Z) : option Z := decimal_in decimal_zeros x.

Definition is_decimal (x : Z) : bool :=
  match decimal_value x with Some _ => true | None => false end.

(** Whitespace ([\s]). *)
Definition is_whitespace (x : Z) : bool :=
  ((9 <=? x) && (x <=? 13)) || ((28 <=? x) && (x <=? 32))
  || (x =? 133) || (x =? 160) || (x =? 5760)
  || ((8192 <=? x) && (x <=? 8202))
  || (x =? 8232) || (x =? 8233) || (x =? 8239) || (x =? 8287)
  || (x =? 12288).

(** Lower case of a code point, as far as it can give an ASCII letter:
    the capitals, the dotted capital I (U+0130) and the Kelvin sign
    (U+212A). *)
Definition lower_code (x : Z) : Z :=
  if (65 <=? x) && (x <=? 90) then x + 32
  else if x =? 304 then 105
  else if x =? 8490 then 107
  else x.

(** A character of the format matched under IGNORECASE: the text has
    the same letter in either case; [s] also matches the long s
    (U+017F) and [i] the dotless i (U+0131). *)
Definition same_letter (c : ascii) (x : Z) : bool :=
  (lower_code x =? lower_code (ord c))
  || ((lower_code (ord c) =? 115) && (x =? 383))
  || ((lower_code (ord c) =? 105) && (x =? 305)).

(** [int(s)] on the texts captured by the directives below: decimal
    digits, possibly after a blank. *)
Fixpoint int_acc (acc : Z) (s : list Z) : Z :=
  match s with
  | [] => acc
  | x :: s' =>
      match decimal_value x with
      | Some v => int_acc (10 * acc + v) s'
      | None => int_acc acc s'
      end
  end.

Definition int (s : list Z) : Z := int_acc 0 s.

(** ** [datetime] *)

(** A [datetime] object: the civil fields and, for an aware object, the
    offset from UTC in seconds ([None] for a naive one). *)
Record datetime : Type := mkdatetime {
  year : Z;
  month : Z;
  day : Z;
  hour : Z;
  minute : Z;
  second : Z;
  microsecond : Z;
  utcoffset : option Z
}.

Definition is_leap (y : Z) : bool :=
  (y mod 4 =? 0) && (negb (y mod 100 =? 0) || (y mod 400 =? 0)).

Definition days_in_month (y m : Z) : Z :=
  if m =? 2 then (if is_leap y then 29 else 28)
  else if (m =? 4) || (m =? 6) || (m =? 9) || (m =? 11) then 30
  else 31.

(** The range checks of the [datetime] constructor. *)
Definition fields_ok (y mo d h mi s us : Z) : bool :=
  (1 <=? y) && (y <=? 9999) &&
  (1 <=? mo) && (mo <=? 12) &&
  (1 <=? d) && (d <=? days_in_month y mo) &&
  (0 <=? h) && (h <=? 23) &&
  (0 <=? mi) && (mi <=? 59) &&
  (0 <=? s) && (s <=? 59) &&
  (0 <=? us) && (us <=? 999999).

Definition valid_datetime (d : datetime) : bool :=
  fields_ok (year d) (month d) (day d) (hour d) (minute d) (second d)
    (microsecond d).

Definition datetime_new (y mo d h mi s us : Z) : result datetime :=
  if fields_ok y mo d h mi s us
  then Ok (mkdatetime y mo d h mi s us None)
  else Raise (ValueError "field out of range").

(** Days since 1970-01-01 of a civil date (proleptic Gregorian). *)
Definition days_from_civil (y m d : Z) : Z :=
  let y' := if m <=? 2 then y - 1 else y in
  let era := y' / 400 in
  let yoe := y' - era * 400 in
  let mp := (m + 9) mod 12 in
  let doy := (153 * mp + 2) / 5 + d - 1 in
  let doe := yoe * 365 + yoe / 4 - yoe / 100 + doy in
  era * 146097 + doe - 719468.

(** The instant an aware [datetime] denotes, in microseconds since the
    epoch; aware objects are ordered by it. *)
Definition instant (d : datetime) : Z :=
  let off := match utcoffset d with Some o => o | None => 0 end in
  (days_from_civil (year d) (month d) (day d) * 86400
   + hour d * 3600 + minute d * 60 + second d - off) * 1000000
  + microsecond d.

(** Naive objects are ordered field by field. *)
Definition fields (d : datetime) : list Z :=
  [year d; month d; day d; hour d; minute d; second d; microsecond d].

Fixpoint lex_compare (a b : list Z) : comparison :=
  match a, b with
  | [], [] => Eq
  | [], _ :: _ => Lt
  | _ :: _, [] => Gt
  | x :: a', y :: b' =>
      match x ?= y with
      | Eq => lex_compare a' b'
      | c => c
      end
  end.

Definition dt_compare (a b : datetime) : comparison :=
  lex_compare (fields a) (fields b).

Definition dt_leb (a b : datetime) : bool :=
  match dt_compare a b with Gt => false | _ => true end.

Definition dt_lt (a b : datetime) : Prop := dt_compare a b = Lt.

(** ** Format strings *)

Inductive fmt_item : Type :=
| Directive (c : ascii)
| Literal (c : ascii).

Fixpoint parse_format (fmt : string) : list fmt_item :=
  match fmt with
  | EmptyString => []
  | String c rest =>
      match c, rest with
      | "%"%char, String d rest' => Directive d :: parse_format rest'
      | _, _ => Literal c :: parse_format rest
      end
  end.

(** ** [strftime] (C locale) *)

Definition hour12 (h : Z) : Z :=
  if h mod 12 =? 0 then 12 else h mod 12.

Definition format_directive (c : ascii) (d : datetime) : string :=
  match c with
  | "Y"%char => zfill4 (year d)
  | "m"%char => zfill2 (month d)
  | "d"%char => zfill2 (day d)
  | "I"%char => zfill2 (hour12 (hour d))
  | "M"%char => zfill2 (minute d)
  | "S"%char => zfill2 (second d)
  | "p"%char => if hour d <? 12 then "AM" else "PM"
  | _ => String "%" (String c EmptyString)
  end.

Fixpoint format_items (items : list fmt_item) (d : datetime) : string :=
  match items with
  | [] => EmptyString
  | Directive c :: tl => format_directive c d ++ format_items tl d
  | Literal c :: tl => String c (format_items tl d)
  end.

Definition strftime (d : datetime) (fmt : string) : string :=
  format_items (parse_format fmt) d.

(** ** [strptime] (C locale)

    [_strptime] turns the format into a regular expression compiled
    with IGNORECASE: every directive becomes a group of alternatives,
    every run of blanks becomes [\s+], every other character matches
    itself.  The text must match from its first character and nothing
    may remain after the match. *)

Inductive re_item : Type :=
| RField (c : ascii)
| RChar (c : ascii)
| RSpaces.

Fixpoint pattern (items : list fmt_item) : list re_item :=
  match items with
  | [] => []
  | Directive c :: tl => RField c :: pattern tl
  | Literal c :: tl =>
      if is_space c then
        match pattern tl with
        | RSpaces :: p => RSpaces :: p
        | p => RSpaces :: p
        end
      else RChar c :: pattern tl
  end.

(** Classes of characters of the format ([timestamp_shape] below) and
    of code points of the text. *)
Definition char_class : Type := ascii -> bool.

Definition one (c : ascii) : char_class := fun x => Ascii.eqb x c.

Definition code_class : Type := Z -> bool.

Definition code (c : ascii) : code_class := fun x => x =? ord c.
Definition codes (lo hi : ascii) : code_class :=
  fun x => (ord lo <=? x) && (x <=? ord hi).

(** The alternatives of a directive, in the order the expression
    tries them. *)
Definition field_alternatives (c : ascii) : option (list (list code_class)) :=
  match c with
  | "Y"%char => Some [[is_decimal; is_decimal; is_decimal; is_decimal]]
  | "m"%char =>
      Some [[code "1"; codes "0" "2"]; [code "0"; codes "1" "9"];
            [codes "1" "9"]]
  | "d"%char =>
      Some [[code "3"; codes "0" "1"]; [codes "1" "2"; is_decimal];
            [code "0"; codes "1" "9"]; [codes "1" "9"];
            [code " "; codes "1" "9"]]
  | "I"%char =>
      Some [[code "1"; codes "0" "2"]; [code "0"; codes "1" "9"];
            [codes "1" "9"]]
  | "M"%char => Some [[codes "0" "5"; is_decimal]; [is_decimal]]
  | "S"%char =>
      Some [[code "6"; codes "0" "1"]; [codes "0" "5"; is_decimal];
            [is_decimal]]
  | "p"%char =>
      Some [[same_letter "a"; same_letter "m"];
            [same_letter "p"; same_letter "m"]]
  | _ => None
  end.

Definition supported (it : re_item) : bool :=
  match it with
  | RField c => match field_alternatives c with Some _ => true | None => false end
  | _ => true
  end.

(** Match a sequence of classes at the head of [s]: the text matched
    and what follows it. *)
Fixpoint match_seq (cs : list code_class) (s : list Z)
  : option (list Z * list Z) :=
  match cs with
  | [] => Some ([], s)
  | k :: cs' =>
      match s with
      | [] => None
      | c :: s' =>
          if k c then
            match match_seq cs' s' with
            | Some (m, r) => Some (c :: m, r)
            | None => None
            end
          else None
      end
  end.

(** What may follow a greedy [\s+] at the head of [s], longest run
    first. *)
Fixpoint after_spaces (s : list Z) : list (list Z) :=
  match s with
  | [] => []
  | c :: s' => if is_whitespace c then (after_spaces s' ++ [s'])%list else []
  end.

Fixpoint first_some {A : Type} (l : list (option A)) : option A :=
  match l with
  | [] => None
  | Some a :: _ => Some a
  | None :: tl => first_some tl
  end.

Definition groups : Type := list (ascii * list Z).

(** Backtracking match: the first way through the alternatives that
    lets the rest of the expression match. *)
Fixpoint re_match (p : list re_item) (s : list Z) (found : groups)
  : option (groups * list Z) :=
  match p with
  | [] => Some (found, s)
  | RChar c :: p' =>
      match s with
      | [] => None
      | c' :: s' => if same_letter c c' then re_match p' s' found else None
      end
  | RSpaces :: p' =>
      first_some (map (fun r => re_match p' r found) (after_spaces s))
  | RField c :: p' =>
      match field_alternatives c with
      | None => None
      | Some alts =>
          first_some
            (map (fun alt =>
                    match match_seq alt s with
                    | Some (m, r) => re_match p' r ((c, m) :: found)
                    | None => None
                    end) alts)
      end
  end.

Fixpoint group (c : ascii) (found : groups) : option (list Z) :=
  match found with
  | [] => None
  | (k, v) :: tl => if Ascii.eqb k c then Some v else group c tl
  end.

Definition group_int (c : ascii) (dflt : Z) (found : groups) : Z :=
  match group c found with
  | Some v => int v
  | None => dflt
  end.

(** [v.lower() == 'pm'] for the text of [%p]. *)
Definition is_pm (v : list Z) : bool :=
  match map lower_code v with
  | [p; m] => (p =? 112) && (m =? 109)
  | _ => false
  end.

(** The hour of the day from [%I] and [%p]. *)
Definition hour_of (found : groups) : Z :=
  let h := group_int "I" 0 found in
  match group "p" found with
  | Some v =>
      if is_pm v
      then (if h =? 12 then 12 else h + 12)
      else (if h =? 12 then 0 else h)
  | None => if h =? 12 then 0 else h
  end.

Definition strptime (data fmt : string) : result datetime :=
  let p := pattern (parse_format fmt) in
  if negb (forallb supported p) then Raise (ValueError "bad directive in format")
  else
    match decode_utf8 data with
    | None => Raise (ValueError "time data does not match format")
    | Some text =>
        match re_match p text [] with
        | None => Raise (ValueError "time data does not match format")
        | Some (found, rest) =>
            match rest with
            | _ :: _ => Raise (ValueError "unconverted data remains")
            | [] =>
                datetime_new (group_int "Y" 1900 found) (group_int "m" 1 found)
                  (group_int "d" 1 found) (hour_of found)
                  (group_int "M" 0 found) (group_int "S" 0 found) 0
            end
        end
    end.


(** ** [sorted]

    [sorted(l, key=f, reverse=r)] computes the key of every element
    first, in list order, and sorts the decorated list with a stable
    sort.  With [reverse] the list is reversed before and after the
    sort, so elements with equal keys keep their original order. *)

Section Sorted.
Context {A K : Type}.
Variable leb : K -> K -> bool.

Fixpoint insert_sorted (x : K * A) (l : list (K * A)) : list (K * A) :=
  match l with
  | [] => [x]
  | y :: tl =>
      if leb (fst x) (fst y) then x :: y :: tl
      else y :: insert_sorted x tl
  end.

Definition sort_stable (l : list (K * A)) : list (K * A) :=
  fold_right insert_sorted [] l.

Definition sort_decorated (reverse : bool) (l : list (K * A))
  : list (K * A) :=
  if reverse then rev (sort_stable (rev l)) else sort_stable l.

Definition sorted (l : list A) (key : A -> result K) (reverse : bool)
  : result (list A) :=
  keys <- map_result key l ;;
  Ok (map snd (sort_decorated reverse (combine keys l))).
End Sorted.

End Py.

(* ================================================================== *)
(** * Element trees *)

Module Html.

Inductive attr_value : Type :=
| AStr (s : string)
| ATrue.

Definition attrs : Type := list (string * attr_value).

(** What [Div(...)], [Span(...)], ... build: a tag, the children in
    order (strings stay strings) and the keyword arguments. *)
Inductive FT : Type :=
| Text (s : string)
| Element (tag : string) (children : list FT) (kw : attrs).

Definition Div := Element "div".
Definition Span := Element "span".
Definition Small := Element "small".
Definition P := Element "p".
Definition H1 := Element "h1".
Definition H2 := Element "h2".
Definition A := Element "a".
Definition Button := Element "button".
Definition Form := Element "form".
Definition Input := Element "input".
Definition Label := Element "label".
Definition Main := Element "main".
Definition Title := Element "title".

Definition children (e : FT) : list FT :=
  match e with
  | Text _ => []
  | Element _ cs _ => cs
  end.

Definition kwargs (e : FT) : attrs :=
  match e with
  | Text _ => []
  | Element _ _ kw => kw
  end.

Fixpoint lookup (k : string) (kw : attrs) : option attr_value :=
  match kw with
  | [] => None
  | (k', v) :: tl => if String.eqb k' k then Some v else lookup k tl
  end.

(** The strings of a tree, in document order. *)
Fixpoint texts (e : FT) : list string :=
  match e with
  | Text s => [s]
  | Element _ cs _ => flat_map texts cs
  end.

(** ** Serialisation

    The serialiser belongs to the framework, outside [main.py]; the
    definitions of this part follow the spec, which asks for the
    strings of the user to be escaped for HTML embedding. *)

Definition dquote : ascii := "034"%char.

(** Modelled from the spec: the escaping of the framework's serialiser,
    missing from the source; the five replacements of [html.escape]. *)
Definition escape_char (c : ascii) : string :=
  match c with
  | "&"%char => "&amp;"
  | "<"%char => "&lt;"
  | ">"%char => "&gt;"
  | "034"%char => "&quot;"
  | "'"%char => "&#x27;"
  | _ => String c EmptyString
  end.

(** Modelled from the spec: the escaping of the framework's serialiser,
    missing from the source, applied to a whole string. *)
Fixpoint escape (s : string) : string :=
  match s with
  | EmptyString => EmptyString
  | String c s' => escape_char c ++ escape s'
  end.

(** Modelled from the spec: the attribute names of the framework's
    serialiser, missing from the source: [cls] is [class], [fr] is
    [for], an underscore is a hyphen. *)
Fixpoint hyphens (s : string) : string :=
  match s with
  | EmptyString => EmptyString
  | String c s' => String (if Ascii.eqb c "_" then "-"%char else c) (hyphens s')
  end.

(** Modelled from the spec: see [hyphens]. *)
Definition attr_name (k : string) : string :=
  if String.eqb k "cls" then "class"
  else if String.eqb k "fr" then "for"
  else hyphens k.

(** Modelled from the spec: an attribute of the framework's serialiser,
    missing from the source; the value is escaped and quoted, [True]
    gives the bare name. *)
Definition render_attr (a : string * attr_value) : string :=
  match snd a with
  | ATrue => " " ++ attr_name (fst a)
  | AStr v =>
      " " ++ attr_name (fst a) ++ "=" ++ String dquote (escape v)
      ++ String dquote EmptyString
  end.

(** Modelled from the spec: the elements the framework's serialiser,
    missing from the source, writes without children and end tag. *)
Definition is_void (tag : string) : bool :=
  String.eqb tag "input" || String.eqb tag "meta" || String.eqb tag "link"
  || String.eqb tag "br" || String.eqb tag "hr" || String.eqb tag "img".

(** Modelled from the spec: the framework's serialiser, missing from
    the source: a string child is escaped, an element is its start tag
    with the attributes, its children in order and its end tag. *)
Fixpoint to_xml (e : FT) : string :=
  match e with
  | Text s => escape s
  | Element tag cs kw =>
      "<" ++ tag ++ String.concat EmptyString (map render_attr kw) ++ ">"
      ++ (if is_void tag then EmptyString
          else String.concat EmptyString (map to_xml cs) ++ "</" ++ tag ++ ">")
  end.

End Html.

(* ================================================================== *)
(** * The message table *)

Module Store.

(** The columns of a row.  The record stands for a row whichever way
    Python holds it: as the object a scan of the table returns, read
    with [getitem], or as a dict with these four keys, read by field. *)
Record Message : Type := mkMessage {
  id : Z;
  name : string;
  message : string;
  timestamp : string
}.

(** The rows of the table, in the order a scan returns them. *)
Definition Table : Type := list Message.

(** [messages_table()]: the table of [main.py] is the third component
    of what [fast_app] returns, the fourth being the class of its rows;
    a scan returns objects of that class. *)
Definition rows (t : Table) : list Message := t.

Definition not_subscriptable : exn :=
  TypeError "'Items' object is not subscriptable".

(** [x[key]] on a row a scan returned: an object of the row class has
    no [__getitem__], whatever the key. *)
Definition getitem (x : Message) (key : string) : result string :=
  Raise not_subscriptable.

Definition max_id (m : Message) (t : Table) : Z :=
  fold_right Z.max (id m) (map id t).

(** Modelled from the spec: the id the table's [insert] assigns; the
    storage layer is missing from the source.  The spec gives a fresh
    id, the primary key being monotonic and never reused: the first
    row of an empty table gets 1, every later row one more than the
    largest id in the table. *)
Definition next_id (t : Table) : Z :=
  match t with
  | [] => 1
  | m :: tl => max_id m tl + 1
  end.

(** Modelled from the spec: the table's [insert], missing from the
    source: it appends a row with a fresh id and the strings passed to
    it, whatever they are. *)
Definition insert (name message timestamp : string) (t : Table) : Table :=
  (t ++ [mkMessage (next_id t) name message timestamp])%list.

End Store.

(* ================================================================== *)
(** * [main.py] *)

Module Guestbook.

Import Html.
Import Store.

(** The wall clock: [now zone] is what
    [datetime.now(pytz.timezone(zone))] returns when the call is made. *)
Definition clock : Type := string -> Py.datetime.

Definition get_pst_time (now : clock) : Py.datetime := now "US/Pacific".

(** The key of [sorted] subscripts a row of the scan. *)
Definition get_all_messages (messages_table : Table)
  : result (list Message) :=
  let messages := rows messages_table in
  Py.sorted Py.dt_leb messages
    (fun x => ts <- getitem x "timestamp" ;; Py.strptime ts TIMESTAMP_FMT)
    true.

Definition add_message (now : clock) (messages_table : Table)
    (name message : string) : Table :=
  insert name message (Py.strftime (get_pst_time now) TIMESTAMP_FMT)
    messages_table.

(** [messages] is a list of dicts, as the signature declares it. *)
Definition create_message_list (messages : list Message) : FT :=
  match messages with
  | [] =>
      Div [P [Text "No messages yet. Be the first to say hi!"] []]
        [("id", AStr "message-list"); ("cls", AStr "empty-state")]
  | _ :: _ =>
      Div
        (map (fun msg =>
                Div
                  [Div
                     [Span [Text (Store.name msg ++ ": ")]
                        [("cls", AStr "message-name")];
                      Span [Text (Store.message msg)]
                        [("cls", AStr "message-text")];
                      Small [Text (Store.timestamp msg)]
                        [("cls", AStr "message-timestamp")]]
                     [("cls", AStr "message-content")]]
                  [("cls", AStr "message")])
           messages)
        [("id", AStr "message-list"); ("cls", AStr "message-list")]
  end.

Definition create_guest_counter (count : Z) : FT :=
  Div
    [Text (Py.str count ++ " guests have said hi so far ");
     Span [Text "👋"] [("cls", AStr "emoji")]]
    [("id", AStr "guest-counter"); ("cls", AStr "guest-counter")].

(** The handlers run against the table and return it with their
    result; an exception leaves the table as it was when raised. *)

Definition get (messages : Table) : Table * result (FT * FT) :=
  match get_all_messages messages with
  | Raise e => (messages, Raise e)
  | Ok all_messages =>
      let guest_counter := create_guest_counter (Py.len all_messages) in
      let message_list := create_message_list all_messages in
      let form :=
        Form
          [Div
             [Div
                [Label [Text "Name:"] [("fr", AStr "name")];
                 Div
                   [Input []
                      [("type", AStr "text"); ("id", AStr "name");
                       ("name", AStr "name"); ("required", ATrue);
                       ("placeholder", AStr "Enter your name");
                       ("maxlength", AStr (Py.str MAX_NAME_CHAR));
                       ("oninput",
                        AStr ("updateCharCount('name', 'nameCount', "
                              ++ Py.str MAX_NAME_CHAR ++ ")"))];
                    Span [] [("id", AStr "nameCount");
                             ("cls", AStr "char-count")]]
                   [("cls", AStr "input-with-counter")]]
                [("cls", AStr "input-wrapper")];
              Div
                [Label [Text "Message:"] [("fr", AStr "message")];
                 Div
                   [Input []
                      [("type", AStr "text"); ("id", AStr "message");
                       ("name", AStr "message"); ("required", ATrue);
                       ("placeholder", AStr "Enter your message");
                       ("maxlength", AStr (Py.str MAX_MESSAGE_CHAR));
                       ("oninput",
                        AStr ("updateCharCount('message', 'messageCount', "
                              ++ Py.str MAX_MESSAGE_CHAR ++ ")"))];
                    Span [] [("id", AStr "messageCount");
                             ("cls", AStr "char-count")]]
                   [("cls", AStr "input-with-counter")]]
                [("cls", AStr "input-wrapper")]]
             [("cls", AStr "input-group")];
           Button [Text "Submit"] [("type", AStr "submit")]]
          [("id", AStr "message-form");
           ("hx_post", AStr "/submit-message");
           ("hx_target", AStr "#update-area");
           ("hx_swap", AStr "innerHTML")] in
      let footer :=
        Div
          [Text "made with ❤️ by ";
           A [Text "author"]
             [("href", AStr "https://x.com/author");
              ("target", AStr "_blank")]]
          [("cls", AStr "footer")] in
      (messages,
       Ok (Title [Text "Simple Guestbook"] [],
           Main
             [H1 [Text "✍️ Guestbook"] [];
              form;
              H2 [Text "🪵 log"] [];
              Div [guest_counter; message_list]
                [("id", AStr "update-area");
                 ("hx_get", AStr "/update-messages");
                 ("hx_trigger", AStr "every 10s")];
              footer]
             []))
  end.

Definition post (now : clock) (name message : string) (messages : Table)
  : Table * result FT :=
  let messages := add_message now messages name message in
  match get_all_messages messages with
  | Raise e => (messages, Raise e)
  | Ok all_messages =>
      let guest_counter := create_guest_counter (Py.len all_messages) in
      let message_list := create_message_list all_messages in
      (messages,
       Ok (Div [guest_counter; message_list]
             [("id", AStr "update-area");
              ("hx_get", AStr "/update-messages");
              ("hx_trigger", AStr "every 10s")]))
  end.

Definition get_update_messages (messages : Table) : Table * result FT :=
  match get_all_messages messages with
  | Raise e => (messages, Raise e)
  | Ok all_messages =>
      let guest_counter := create_guest_counter (Py.len all_messages) in
      let message_list := create_message_list all_messages in
      (messages,
       Ok (Div [guest_counter; message_list]
             [("id", AStr "update-area");
              ("hx_get", AStr "/update-messages");
              ("hx_trigger", AStr "every 10s")]))
  end.

(** ** Routing *)

Inductive request : Type :=
| GET_index
| POST_submit_message (name message : string)
| GET_update_messages.

Inductive response : Type :=
| Page (title main : FT)
| Fragment (div : FT).

(** One request, routed to its handler at a moment when the clock
    reads [now]. *)
Definition handle (now : clock) (req : request) (messages : Table)
  : Table * result response :=
  match req with
  | GET_index =>
      let (t, r) := get messages in
      (t, p <- r ;; Ok (Page (fst p) (snd p)))
  | POST_submit_message name message =>
      let (t, r) := post now name message messages in
      (t, d <- r ;; Ok (Fragment d))
  | GET_update_messages =>
      let (t, r) := get_update_messages messages in
      (t, d <- r ;; Ok (Fragment d))
  end.

End Guestbook.

Import Guestbook.

(* ================================================================== *)
(** * Properties of the runtime model *)

(** ** The order of naive [datetime] objects *)

Lemma lex_compare_antisym (a b : list Z) :
  Py.lex_compare b a = CompOpp (Py.lex_compare a b).
Proof.
  revert b; induction a as [|x a IH]; intros [|y b]; simpl; auto.
  rewrite (Z.compare_antisym x y).
  destruct (x ?= y); simpl; auto.
Qed.

Lemma lex_compare_eq (a b : list Z) : Py.lex_compare a b = Eq -> a = b.
Proof.
  revert b; induction a as [|x a IH]; intros [|y b]; simpl; try congruence.
  destruct (Z.compare_spec x y) as [Hxy|Hxy|Hxy]; try discriminate.
  intros H. subst. f_equal. auto.
Qed.

(** ** [strptime] reads back what [strftime] writes *)

Ltac enum_pos p :=
  repeat (destruct p as [p|p|]; try lia).

Ltac enum_Z n :=
  destruct n as [|n|n]; try lia; [.. | enum_pos n].

Lemma fields_ok_ranges y mo d h mi s us :
  Py.fields_ok y mo d h mi s us = true ->
  1 <= y <= 9999 /\ 1 <= mo <= 12 /\ 1 <= d <= 31 /\
  0 <= h <= 23 /\ 0 <= mi <= 59 /\ 0 <= s <= 59 /\ 0 <= us <= 999999.
Proof.
  unfold Py.fields_ok. rewrite !andb_true_iff, !Z.leb_le.
  intros H. decompose [and] H; clear H.
  assert (Py.days_in_month y mo <= 31).
  { unfold Py.days_in_month.
    destruct (mo =? 2); [destruct (Py.is_leap y); lia|].
    destruct ((mo =? 4) || (mo =? 6) || (mo =? 9) || (mo =? 11)); lia. }
  lia.
Qed.

Lemma fields_ok_whole_second y mo d h mi s us :
  Py.fields_ok y mo d h mi s us = true ->
  Py.fields_ok y mo d h mi s 0 = true.
Proof.
  unfold Py.fields_ok. rewrite !andb_true_iff, !Z.leb_le.
  intros H. decompose [and] H; clear H. repeat split; auto; lia.
Qed.

Lemma digit_char_is_digit k :
  0 <= k <= 9 -> Py.is_digit (Py.digit_char k) = true.
Proof. intros H. enum_Z k; reflexivity. Qed.

Lemma ord_digit_char k : 0 <= k <= 9 -> Py.ord (Py.digit_char k) = 48 + k.
Proof. intros H. enum_Z k; reflexivity. Qed.

Lemma decimal_digit k : 0 <= k <= 9 -> Py.decimal_value (48 + k) = Some k.
Proof. intros H. enum_Z k; reflexivity. Qed.

Lemma is_decimal_digit k : 0 <= k <= 9 -> Py.is_decimal (48 + k) = true.
Proof. intros H. unfold Py.is_decimal. rewrite decimal_digit by exact H. reflexivity. Qed.

Lemma digit_not_whitespace k :
  0 <= k <= 9 -> Py.is_whitespace (48 + k) = false.
Proof. intros H. enum_Z k; reflexivity. Qed.

(** The code points of an ASCII text are its bytes. *)
Lemma decode_ascii c s r :
  (Py.ord c <? 128) = true ->
  Py.decode_utf8 s = Some r ->
  Py.decode_utf8 (String c s) = Some (Py.ord c :: r).
Proof. intros Hc Hs. cbn [Py.decode_utf8]. rewrite Hc, Hs. reflexivity. Qed.

Lemma decode_digit k s r :
  0 <= k <= 9 ->
  Py.decode_utf8 s = Some r ->
  Py.decode_utf8 (String (Py.digit_char k) s) = Some ((48 + k) :: r).
Proof.
  intros Hk Hs. rewrite <- (ord_digit_char k Hk). apply decode_ascii; [|exact Hs].
  rewrite ord_digit_char by exact Hk. apply Z.ltb_lt. lia.
Qed.

(** The code points of [zfill2 n] and [zfill4 n]. *)
Definition zc2 (n : Z) : list Z := [48 + n / 10; 48 + n mod 10].

Definition zc4 (n : Z) : list Z :=
  [48 + n / 1000; 48 + n / 100 mod 10; 48 + n mod 100 / 10;
   48 + (n mod 100) mod 10].

Lemma int_zc2 n : 0 <= n <= 99 -> Py.int (zc2 n) = n.
Proof.
  intros H. unfold Py.int, zc2. cbn [Py.int_acc].
  assert (0 <= n / 10 <= 9) by (Z.div_mod_to_equations; lia).
  assert (0 <= n mod 10 <= 9) by (Z.div_mod_to_equations; lia).
  rewrite !decimal_digit by assumption.
  Z.div_mod_to_equations; lia.
Qed.

Lemma int_zc4 n : 0 <= n <= 9999 -> Py.int (zc4 n) = n.
Proof.
  intros H. unfold Py.int, zc4. cbn [Py.int_acc].
  assert (0 <= n / 1000 <= 9) by (Z.div_mod_to_equations; lia).
  assert (0 <= n / 100 mod 10 <= 9) by (Z.div_mod_to_equations; lia).
  assert (0 <= n mod 100 / 10 <= 9) by (Z.div_mod_to_equations; lia).
  assert (0 <= (n mod 100) mod 10 <= 9) by (Z.div_mod_to_equations; lia).
  rewrite !decimal_digit by assumption.
  Z.div_mod_to_equations; lia.
Qed.

(** The first alternative of a directive that matches at the head of
    the text. *)
Definition first_seq (alts : list (list Py.code_class)) (s : list Z)
  : option (list Z * list Z) :=
  Py.first_some (map (fun alt => Py.match_seq alt s) alts).

Lemma re_match_field c alts p s m r found res :
  Py.field_alternatives c = Some alts ->
  first_seq alts s = Some (m, r) ->
  Py.re_match p r ((c, m) :: found) = Some res ->
  Py.re_match (Py.RField c :: p) s found = Some res.
Proof.
  intros Ha Hf Hr. simpl. rewrite Ha. clear Ha.
  unfold first_seq in Hf.
  induction alts as [|alt alts IH]; simpl in *; [discriminate|].
  destruct (Py.match_seq alt s) as [[m' r']|].
  - inversion Hf; subst. rewrite Hr. reflexivity.
  - auto.
Qed.

Lemma re_match_spaces p c s found res :
  Py.is_whitespace c = false ->
  Py.re_match p (c :: s) found = Some res ->
  Py.re_match (Py.RSpaces :: p) (32 :: c :: s) found = Some res.
Proof.
  intros Hc Hr. cbn [Py.re_match Py.after_spaces].
  change (Py.is_whitespace 32) with true. cbv iota.
  rewrite Hc. cbn [app map Py.first_some]. rewrite Hr. reflexivity.
Qed.

Lemma re_match_char c x p s found res :
  Py.same_letter c x = true ->
  Py.re_match p s found = Some res ->
  Py.re_match (Py.RChar c :: p) (x :: s) found = Some res.
Proof. intros Hc Hr. cbn [Py.re_match]. rewrite Hc. exact Hr. Qed.

Lemma first_seq_year y s :
  0 <= y <= 9999 ->
  first_seq [[Py.is_decimal; Py.is_decimal; Py.is_decimal; Py.is_decimal]]
    (zc4 y ++ s)%list = Some (zc4 y, s).
Proof.
  intros H. unfold first_seq, zc4.
  cbn [map Py.first_some Py.match_seq app].
  assert (0 <= y / 1000 <= 9) by (Z.div_mod_to_equations; lia).
  assert (0 <= y / 100 mod 10 <= 9) by (Z.div_mod_to_equations; lia).
  assert (0 <= y mod 100 / 10 <= 9) by (Z.div_mod_to_equations; lia).
  assert (0 <= (y mod 100) mod 10 <= 9) by (Z.div_mod_to_equations; lia).
  rewrite !is_decimal_digit by assumption. reflexivity.
Qed.

Lemma first_seq_12 n s :
  1 <= n <= 12 ->
  first_seq [[Py.code "1"; Py.codes "0" "2"]; [Py.code "0"; Py.codes "1" "9"];
             [Py.codes "1" "9"]]
    (zc2 n ++ s)%list = Some (zc2 n, s).
Proof. intros H. enum_Z n; vm_compute; reflexivity. Qed.

Lemma first_seq_day n s :
  1 <= n <= 31 ->
  first_seq [[Py.code "3"; Py.codes "0" "1"]; [Py.codes "1" "2"; Py.is_decimal];
             [Py.code "0"; Py.codes "1" "9"]; [Py.codes "1" "9"];
             [Py.code " "; Py.codes "1" "9"]]
    (zc2 n ++ s)%list = Some (zc2 n, s).
Proof. intros H. enum_Z n; vm_compute; reflexivity. Qed.

Lemma first_seq_minute n s :
  0 <= n <= 59 ->
  first_seq [[Py.codes "0" "5"; Py.is_decimal]; [Py.is_decimal]]
    (zc2 n ++ s)%list = Some (zc2 n, s).
Proof. intros H. enum_Z n; vm_compute; reflexivity. Qed.

Lemma first_seq_second n s :
  0 <= n <= 59 ->
  first_seq [[Py.code "6"; Py.codes "0" "1"]; [Py.codes "0" "5"; Py.is_decimal];
             [Py.is_decimal]]
    (zc2 n ++ s)%list = Some (zc2 n, s).
Proof. intros H. enum_Z n; vm_compute; reflexivity. Qed.

Definition am_pm (h : Z) : string := if h <? 12 then "AM" else "PM".

Definition am_pm_codes (h : Z) : list Z :=
  if h <? 12 then [65; 77] else [80; 77].

Lemma first_seq_am_pm h s :
  first_seq [[Py.same_letter "a"; Py.same_letter "m"];
             [Py.same_letter "p"; Py.same_letter "m"]]
    (am_pm_codes h ++ s)%list = Some (am_pm_codes h, s).
Proof. unfold am_pm_codes. destruct (h <? 12); vm_compute; reflexivity. Qed.

Lemma hour12_range h : 0 <= h <= 23 -> 1 <= Py.hour12 h <= 12.
Proof.
  intros H. unfold Py.hour12.
  destruct (Z.eqb_spec (h mod 12) 0); Z.div_mod_to_equations; lia.
Qed.

Lemma hour_of_found h a b c d e :
  0 <= h <= 23 ->
  Py.hour_of [("p"%char, am_pm_codes h); ("S"%char, a); ("M"%char, b);
              ("I"%char, zc2 (Py.hour12 h)); ("d"%char, c);
              ("m"%char, d); ("Y"%char, e)] = h.
Proof. intros H. enum_Z h; vm_compute; reflexivity. Qed.

Lemma re_match_spaces_zc2 p n s found res :
  0 <= n <= 99 ->
  Py.re_match p (zc2 n ++ s)%list found = Some res ->
  Py.re_match (Py.RSpaces :: p) (32 :: zc2 n ++ s)%list found = Some res.
Proof.
  intros H. unfold zc2. cbn [app].
  apply re_match_spaces, digit_not_whitespace.
  Z.div_mod_to_equations; lia.
Qed.

Lemma re_match_spaces_am_pm p h s found res :
  Py.re_match p (am_pm_codes h ++ s)%list found = Some res ->
  Py.re_match (Py.RSpaces :: p) (32 :: am_pm_codes h ++ s)%list found
  = Some res.
Proof.
  unfold am_pm_codes. destruct (h <? 12); cbn [app];
    apply re_match_spaces; reflexivity.
Qed.

(** What [strptime] keeps of a [datetime] written with
    [TIMESTAMP_FMT]: the civil fields down to the second. *)
Definition whole_second (d : Py.datetime) : Py.datetime :=
  Py.mkdatetime (Py.year d) (Py.month d) (Py.day d) (Py.hour d)
    (Py.minute d) (Py.second d) 0 None.

Lemma strftime_timestamp (d : Py.datetime) :
  Py.strftime d TIMESTAMP_FMT =
  Py.zfill4 (Py.year d) ++ String "-" (Py.zfill2 (Py.month d) ++ String "-"
  (Py.zfill2 (Py.day d) ++ String " " (Py.zfill2 (Py.hour12 (Py.hour d)) ++
  String ":" (Py.zfill2 (Py.minute d) ++ String ":"
  (Py.zfill2 (Py.second d) ++ String " " (am_pm (Py.hour d) ++ " PST")))))).
Proof. reflexivity. Qed.

(** The code points of a timestamp. *)
Definition timestamp_codes (d : Py.datetime) : list Z :=
  (zc4 (Py.year d) ++ 45 :: zc2 (Py.month d) ++ 45 :: zc2 (Py.day d)
   ++ 32 :: zc2 (Py.hour12 (Py.hour d)) ++ 58 :: zc2 (Py.minute d)
   ++ 58 :: zc2 (Py.second d) ++ 32 :: am_pm_codes (Py.hour d)
   ++ [32; 80; 83; 84])%list.

Lemma decode_strftime (d : Py.datetime) :
  Py.valid_datetime d = true ->
  Py.decode_utf8 (Py.strftime d TIMESTAMP_FMT) = Some (timestamp_codes d).
Proof.
  intros Hv. apply fields_ok_ranges in Hv.
  destruct Hv as (Hy & Hmo & Hd & Hh & Hmi & Hs & _).
  pose proof (hour12_range _ Hh) as HI.
  rewrite strftime_timestamp.
  unfold timestamp_codes, zc4, zc2, Py.zfill4, Py.zfill2, am_pm, am_pm_codes.
  destruct (Py.hour d <? 12); cbn [String.append app];
    repeat first
      [ apply decode_digit; [Z.div_mod_to_equations; lia|]
      | match goal with
        | |- Py.decode_utf8 (String ?c _) = _ =>
            apply (decode_ascii c); [reflexivity|]
        end ];
    reflexivity.
Qed.

Lemma timestamp_pattern :
  Py.pattern (Py.parse_format TIMESTAMP_FMT) =
  [Py.RField "Y"; Py.RChar "-"; Py.RField "m"; Py.RChar "-"; Py.RField "d";
   Py.RSpaces; Py.RField "I"; Py.RChar ":"; Py.RField "M"; Py.RChar ":";
   Py.RField "S"; Py.RSpaces; Py.RField "p"; Py.RSpaces;
   Py.RChar "P"; Py.RChar "S"; Py.RChar "T"].
Proof. reflexivity. Qed.

Lemma re_match_timestamp (d : Py.datetime) :
  Py.valid_datetime d = true ->
  Py.re_match (Py.pattern (Py.parse_format TIMESTAMP_FMT))
    (timestamp_codes d) [] =
  Some ([("p"%char, am_pm_codes (Py.hour d));
         ("S"%char, zc2 (Py.second d));
         ("M"%char, zc2 (Py.minute d));
         ("I"%char, zc2 (Py.hour12 (Py.hour d)));
         ("d"%char, zc2 (Py.day d));
         ("m"%char, zc2 (Py.month d));
         ("Y"%char, zc4 (Py.year d))], []).
Proof.
  intros Hv. apply fields_ok_ranges in Hv.
  destruct Hv as (Hy & Hmo & Hd & Hh & Hmi & Hs & _).
  pose proof (hour12_range _ Hh) as HI.
  rewrite timestamp_pattern. unfold timestamp_codes.
  eapply re_match_field; [reflexivity | apply first_seq_year; lia |].
  apply re_match_char; [reflexivity|].
  eapply re_match_field; [reflexivity | apply first_seq_12; lia |].
  apply re_match_char; [reflexivity|].
  eapply re_match_field; [reflexivity | apply first_seq_day; lia |].
  apply re_match_spaces_zc2; [lia|].
  eapply re_match_field; [reflexivity | apply first_seq_12; lia |].
  apply re_match_char; [reflexivity|].
  eapply re_match_field; [reflexivity | apply first_seq_minute; lia |].
  apply re_match_char; [reflexivity|].
  eapply re_match_field; [reflexivity | apply first_seq_second; lia |].
  apply re_match_spaces_am_pm.
  eapply re_match_field; [reflexivity | apply first_seq_am_pm |].
  reflexivity.
Qed.

(** Every timestamp the program writes parses, to the second it was
    written in. *)
Lemma strptime_strftime (d : Py.datetime) :
  Py.valid_datetime d = true ->
  Py.strptime (Py.strftime d TIMESTAMP_FMT) TIMESTAMP_FMT
  = Ok (whole_second d).
Proof.
  intros Hv. unfold Py.strptime.
  rewrite decode_strftime, re_match_timestamp by assumption.
  rewrite timestamp_pattern.
  change (negb (forallb Py.supported _)) with false. cbv iota.
  pose proof (fields_ok_ranges _ _ _ _ _ _ _ Hv)
    as (Hy & Hmo & Hd & Hh & Hmi & Hs & _).
  rewrite hour_of_found by assumption.
  unfold Py.group_int. cbn [Py.group Ascii.eqb Bool.eqb].
  rewrite int_zc4 by lia. rewrite !int_zc2 by lia.
  unfold Py.datetime_new.
  unfold Py.valid_datetime in Hv.
  rewrite (fields_ok_whole_second _ _ _ _ _ _ _ Hv). reflexivity.
Qed.

(* ================================================================== *)
(** * Reading the table: [get_all_messages] *)

(** The time the timestamp of a row parses to. *)
Definition ts_key (m : Store.Message) : result Py.datetime :=
  Py.strptime (Store.timestamp m) TIMESTAMP_FMT.

Definition parses (m : Store.Message) : bool := is_ok (ts_key m).

Definition strictly_newer (a b : Store.Message) : Prop :=
  exists ka kb, ts_key a = Ok ka /\ ts_key b = Ok kb /\ Py.dt_lt kb ka.

(** The empty table is read as the empty list; on any other table the
    key raises at the first row, before anything is parsed or sorted. *)
Lemma get_all_messages_nil : get_all_messages [] = Ok [].
Proof. reflexivity. Qed.

Lemma get_all_messages_cons (m : Store.Message) (tl : Store.Table) :
  get_all_messages (m :: tl) = Raise Store.not_subscriptable.
Proof. reflexivity. Qed.

Lemma get_all_messages_snoc (tbl : Store.Table) (row : Store.Message) :
  get_all_messages (tbl ++ [row])%list = Raise Store.not_subscriptable.
Proof. destruct tbl; reflexivity. Qed.

Lemma get_all_messages_ok_nil (tbl : Store.Table) (out : list Store.Message) :
  get_all_messages tbl = Ok out -> tbl = [] /\ out = [].
Proof.
  destruct tbl as [|m tl]; intros H.
  - rewrite get_all_messages_nil in H. inversion H. auto.
  - rewrite get_all_messages_cons in H. discriminate.
Qed.

(* ================================================================== *)
(** * Display order *)

(** A clock that reads [d] in the Pacific zone. *)
Definition reading (d : Py.datetime) : clock := fun _ => d.

(** Three submissions around the end of daylight saving time on
    2024-11-03: 01:30 (UTC-7), then 01:10 and 01:40 (UTC-8). *)
Definition pdt_0130 : clock :=
  reading (Py.mkdatetime 2024 11 3 1 30 0 0 (Some (-25200))).
Definition pst_0110 : clock :=
  reading (Py.mkdatetime 2024 11 3 1 10 0 0 (Some (-28800))).
Definition pst_0140 : clock :=
  reading (Py.mkdatetime 2024 11 3 1 40 0 0 (Some (-28800))).

Definition fall_back_table : Store.Table :=
  add_message pst_0140
    (add_message pst_0110 (add_message pdt_0130 [] "a" "first") "b" "second")
    "c" "third".

Definition fb1 := Store.mkMessage 1 "a" "first" "2024-11-03 01:30:00 AM PST".
Definition fb2 := Store.mkMessage 2 "b" "second" "2024-11-03 01:10:00 AM PST".
Definition fb3 := Store.mkMessage 3 "c" "third" "2024-11-03 01:40:00 AM PST".

(** Three submissions on one morning, each more than a second after
    the one before. *)
Definition morning (s us : Z) : clock :=
  reading (Py.mkdatetime 2024 2 29 11 59 s us (Some (-28800))).

Definition noon : clock :=
  reading (Py.mkdatetime 2024 2 29 12 0 0 0 (Some (-28800))).

Definition three_messages : Store.Table :=
  add_message noon
    (add_message (morning 58 900000)
       (add_message (morning 57 900000) [] "a" "x") "b" "y")
    "c" "z".

Definition tm1 := Store.mkMessage 1 "a" "x" "2024-02-29 11:59:57 AM PST".
Definition tm2 := Store.mkMessage 2 "b" "y" "2024-02-29 11:59:58 AM PST".
Definition tm3 := Store.mkMessage 3 "c" "z" "2024-02-29 12:00:00 PM PST".

(** C1: the read does not return the stored messages newest first: on
    every table that holds a row [get_all_messages] raises.  For the
    three messages written at 11:59:57.9, 11:59:58.9 and 12:00:00 of
    one morning, at strictly increasing instants, the result is the
    exception and not the list of the third, the second and the first
    message. *)
Theorem C1_stored_rows_are_not_read :
  (forall m tl, get_all_messages (m :: tl) = Raise Store.not_subscriptable)
  /\ Py.instant (get_pst_time (morning 57 900000))
     < Py.instant (get_pst_time (morning 58 900000))
  /\ Py.instant (get_pst_time (morning 58 900000))
     < Py.instant (get_pst_time noon)
  /\ three_messages = [tm1; tm2; tm3]
  /\ get_all_messages three_messages
     = Raise (TypeError "'Items' object is not subscriptable")
  /\ get_all_messages three_messages <> Ok [tm3; tm2; tm1].
Proof.
  split; [intros m tl; apply get_all_messages_cons|].
  split; [reflexivity|]. split; [reflexivity|]. split; [reflexivity|].
  split; [reflexivity|]. discriminate.
Qed.

(** The timestamps themselves do not keep the order of insertion
    across the end of daylight saving time: the clock is read in
    US/Pacific and written without its offset, so the message written
    at 01:10 after the change carries an earlier time than the one
    written at 01:30 before it. *)
Example fall_back_timestamps_out_of_order :
  Py.instant (get_pst_time pdt_0130) < Py.instant (get_pst_time pst_0110)
  /\ Py.instant (get_pst_time pst_0110) < Py.instant (get_pst_time pst_0140)
  /\ fall_back_table = [fb1; fb2; fb3]
  /\ strictly_newer fb1 fb2
  /\ strictly_newer fb3 fb1.
Proof.
  split; [reflexivity|]. split; [reflexivity|]. split; [reflexivity|].
  split; eexists; eexists; (split; [vm_compute; reflexivity|]);
    (split; [vm_compute; reflexivity|]); reflexivity.
Qed.

Definition w1 := Store.mkMessage 1 "a" "first" "2024-11-03 10:00:00 AM PST".
Definition w2 := Store.mkMessage 2 "b" "second" "2024-11-03 12:30:00 PM PST".

(* ================================================================== *)
(** * Malformed timestamps *)

(** C2: a row whose timestamp does not parse makes [get_all_messages]
    and every handler raise, and a successful call returns every row
    of the table exactly once. *)
Theorem C2_malformed_timestamp_raises (tbl : Store.Table) :
  (Exists (fun m => parses m = false) tbl ->
     (exists e, get_all_messages tbl = Raise e) /\
     (exists e, snd (get tbl) = Raise e) /\
     (exists e, snd (get_update_messages tbl) = Raise e) /\
     (forall now name message,
        exists e, snd (post now name message tbl) = Raise e))
  /\
  (forall out, get_all_messages tbl = Ok out ->
     Permutation tbl out /\
     List.length out = List.length tbl /\
     Forall (fun m => parses m = true) tbl).
Proof.
  split.
  - intros Hbad. destruct tbl as [|m tl]; [inversion Hbad|].
    split; [|split; [|split]].
    + rewrite get_all_messages_cons. eauto.
    + unfold get. rewrite get_all_messages_cons. simpl. eauto.
    + unfold get_update_messages. rewrite get_all_messages_cons. simpl. eauto.
    + intros now name message. unfold post, add_message, Store.insert.
      rewrite get_all_messages_snoc. simpl. eauto.
  - intros out H. apply get_all_messages_ok_nil in H as [-> ->].
    split; [constructor|]. split; [reflexivity | constructor].
Qed.

Definition corrupt := Store.mkMessage 7 "x" "y" "yesterday at noon".

Lemma C2_malformed_timestamp_raises_witness :
  (exists e, get_all_messages [w1; corrupt; w2] = Raise e)
  /\ (exists e, snd (post pst_0110 "n" "m" [w1; corrupt; w2]) = Raise e)
  /\ Permutation (@nil Store.Message) [].
Proof.
  destruct (C2_malformed_timestamp_raises [w1; corrupt; w2]) as [Hbad _].
  destruct (C2_malformed_timestamp_raises []) as [_ Hgood].
  assert (Hex : Exists (fun m => parses m = false) [w1; corrupt; w2]).
  { apply Exists_cons_tl, Exists_cons_hd. vm_compute. reflexivity. }
  destruct (Hbad Hex) as (H1 & _ & _ & H4).
  split; [exact H1|]. split; [apply H4|].
  apply (Hgood []). reflexivity.
Defined.

(* ================================================================== *)
(** * The handlers *)

(** The row [add_message] writes. *)
Definition new_row (now : clock) (tbl : Store.Table) (name message : string)
  : Store.Message :=
  Store.mkMessage (Store.next_id tbl) name message
    (Py.strftime (get_pst_time now) TIMESTAMP_FMT).

Lemma add_message_appends now tbl name message :
  add_message now tbl name message
  = (tbl ++ [new_row now tbl name message])%list.
Proof. reflexivity. Qed.

(** C3: [post] stores the submitted strings as they are, empty or
    long, but does not succeed: the read that follows the insert
    raises, so the request fails with the row written, and the next
    read raises as well. *)
Theorem C3_submit_raises_after_insert
    (now : clock) (name message : string) (tbl : Store.Table) :
  exists row,
    post now name message tbl
    = ((tbl ++ [row])%list,
       Raise (TypeError "'Items' object is not subscriptable")) /\
    Store.name row = name /\
    Store.message row = message /\
    get_all_messages (tbl ++ [row])%list
    = Raise (TypeError "'Items' object is not subscriptable") /\
    snd (get_update_messages (tbl ++ [row])%list)
    = Raise (TypeError "'Items' object is not subscriptable").
Proof.
  exists (new_row now tbl name message).
  unfold post, get_update_messages.
  rewrite add_message_appends, get_all_messages_snoc.
  repeat split.
Qed.

(** C4: [post] and [get_update_messages] on the table [post] leaves
    agree, but on no fragment: both raise, and neither returns the
    container with the counter and the list. *)
Theorem C4_submit_and_refresh_raise
    (now : clock) (name message : string) (tbl : Store.Table) :
  get_update_messages (fst (post now name message tbl))
  = post now name message tbl
  /\ snd (post now name message tbl)
     = Raise (TypeError "'Items' object is not subscriptable")
  /\ snd (get_update_messages (fst (post now name message tbl)))
     = Raise (TypeError "'Items' object is not subscriptable").
Proof.
  unfold post, get_update_messages.
  rewrite add_message_appends, get_all_messages_snoc. cbn [fst snd].
  rewrite get_all_messages_snoc. repeat split.
Qed.

(** C5: two successive refreshes with no submission in between return
    the same response, whatever the clock reads at either request, and
    leave the table as it was. *)
Theorem C5_refresh_is_idempotent (now1 now2 : clock) (tbl : Store.Table) :
  snd (handle now2 GET_update_messages
         (fst (handle now1 GET_update_messages tbl)))
  = snd (handle now1 GET_update_messages tbl)
  /\ fst (handle now2 GET_update_messages
            (fst (handle now1 GET_update_messages tbl))) = tbl
  /\ snd (get_update_messages (fst (get_update_messages tbl)))
     = snd (get_update_messages tbl).
Proof.
  unfold handle, get_update_messages.
  destruct (get_all_messages tbl) as [all|e] eqn:Hout; cbn [fst snd];
    rewrite ?Hout; cbn [fst snd]; auto.
Qed.

(** ** The table under a run of requests *)

Fixpoint run (reqs : list (clock * request)) (tbl : Store.Table)
  : Store.Table * list (result response) :=
  match reqs with
  | [] => (tbl, [])
  | (now, req) :: tl =>
      let (tbl1, r) := handle now req tbl in
      let (tbl2, rs) := run tl tbl1 in
      (tbl2, r :: rs)
  end.

Definition is_submit (req : request) : bool :=
  match req with
  | POST_submit_message _ _ => true
  | _ => false
  end.

Definition submissions (reqs : list (clock * request)) : nat :=
  List.length (filter (fun r => is_submit (snd r)) reqs).

Lemma get_keeps_table tbl : fst (get tbl) = tbl.
Proof. unfold get. destruct (get_all_messages tbl); reflexivity. Qed.

Lemma get_update_messages_keeps_table tbl :
  fst (get_update_messages tbl) = tbl.
Proof.
  unfold get_update_messages. destruct (get_all_messages tbl); reflexivity.
Qed.

Lemma post_appends now name message tbl :
  fst (post now name message tbl)
  = (tbl ++ [new_row now tbl name message])%list.
Proof.
  unfold post. rewrite add_message_appends.
  destruct (get_all_messages _); reflexivity.
Qed.

Lemma serve_table now req tbl :
  fst (handle now req tbl) =
  match req with
  | POST_submit_message name message =>
      (tbl ++ [new_row now tbl name message])%list
  | _ => tbl
  end.
Proof.
  destruct req as [|name message|]; unfold handle.
  - rewrite <- (get_keeps_table tbl) at 2. destruct (get tbl); reflexivity.
  - rewrite <- post_appends. destruct (post now name message tbl); reflexivity.
  - rewrite <- (get_update_messages_keeps_table tbl) at 2.
    destruct (get_update_messages tbl); reflexivity.
Qed.

Lemma run_appends reqs tbl :
  exists added,
    fst (run reqs tbl) = (tbl ++ added)%list /\
    List.length added = submissions reqs.
Proof.
  revert tbl. induction reqs as [|[now req] tl IH]; intros tbl.
  - exists []. simpl. rewrite app_nil_r. auto.
  - cbn [run]. pose proof (serve_table now req tbl) as Hs.
    destruct (handle now req tbl) as [tbl1 r]. cbn [fst] in Hs. subst tbl1.
    match goal with |- context [run tl ?t] => destruct (IH t) as (added & He & Hl) end.
    destruct (run tl _) as [tbl2 rs]. cbn [fst] in *. subst tbl2.
    unfold submissions in *. cbn [filter snd].
    destruct req as [|name message|]; cbn [is_submit].
    + exists added; auto.
    + exists (new_row now tbl name message :: added).
      rewrite <- app_assoc. simpl. auto.
    + exists added; auto.
Qed.

(** C10: the two GET handlers leave the table as it was; [post] adds
    one row at the end and leaves every earlier row as it was, also
    when it raises; over any run of requests the table only grows, by
    one row per submission. *)
Theorem C10_table_is_append_only (now : clock) (tbl : Store.Table) :
  fst (get tbl) = tbl
  /\ fst (get_update_messages tbl) = tbl
  /\ (forall name message,
        exists row,
          fst (post now name message tbl) = (tbl ++ [row])%list /\
          Store.name row = name /\ Store.message row = message)
  /\ (forall reqs,
        exists added,
          fst (run reqs tbl) = (tbl ++ added)%list /\
          List.length added = submissions reqs).
Proof.
  split; [apply get_keeps_table|].
  split; [apply get_update_messages_keeps_table|].
  split.
  - intros name message. exists (new_row now tbl name message).
    rewrite post_appends. auto.
  - intros reqs. apply run_appends.
Qed.

(* ================================================================== *)
(** * Ids *)

Lemma max_id_bounds (m : Store.Message) (t : Store.Table) :
  Store.id m <= Store.max_id m t /\
  Forall (fun x => Store.id x <= Store.max_id m t) t.
Proof.
  unfold Store.max_id. induction t as [|x t [IH1 IH2]]; simpl.
  - split; [lia | constructor].
  - split; [lia|]. constructor; [lia|].
    eapply Forall_impl; [|exact IH2]. simpl. intros; lia.
Qed.

Lemma next_id_fresh (tbl : Store.Table) :
  Forall (fun old => Store.id old < Store.next_id tbl) tbl.
Proof.
  destruct tbl as [|m t]; [constructor|]. simpl.
  destruct (max_id_bounds m t) as [H1 H2].
  constructor; [lia|].
  eapply Forall_impl; [|exact H2]. simpl. intros; lia.
Qed.

Lemma StronglySorted_lt_NoDup (l : list Z) :
  StronglySorted Z.lt l -> NoDup l.
Proof.
  induction 1 as [|x tl Hs IH Hx]; constructor; auto.
  intros Hin. rewrite Forall_forall in Hx. specialize (Hx _ Hin). lia.
Qed.

(** A sequence of [add_message] calls, each with the reading of the
    clock at the time of the call. *)
Definition add_messages (calls : list (clock * (string * string)))
    (tbl : Store.Table) : Store.Table :=
  fold_left
    (fun t c => add_message (fst c) t (fst (snd c)) (snd (snd c)))
    calls tbl.

Lemma add_messages_appends calls tbl :
  exists new,
    add_messages calls tbl = (tbl ++ new)%list /\
    map (fun m => (Store.name m, Store.message m)) new = map snd calls /\
    StronglySorted Z.lt (map Store.id new) /\
    Forall (fun m => Forall (fun old => Store.id old < Store.id m) tbl) new.
Proof.
  revert tbl. induction calls as [|[now [name message]] tl IH]; intros tbl.
  - exists []. simpl. rewrite app_nil_r. repeat split; constructor.
  - unfold add_messages. cbn [fold_left fst snd].
    fold (add_messages tl (add_message now tbl name message)).
    rewrite add_message_appends.
    destruct (IH (tbl ++ [new_row now tbl name message])%list)
      as (new & Heq & Hnm & Hs & Hfresh).
    exists (new_row now tbl name message :: new).
    rewrite Heq, <- app_assoc. cbn [app map].
    split; [reflexivity|]. split; [rewrite Hnm; reflexivity|].
    assert (Hsplit : Forall (fun m =>
              Forall (fun old => Store.id old < Store.id m) tbl /\
              Store.id (new_row now tbl name message) < Store.id m) new).
    { eapply Forall_impl; [|exact Hfresh]. intros m Hm.
      apply Forall_app in Hm as [Hm1 Hm2]. split; [exact Hm1|].
      inversion Hm2; assumption. }
    split.
    + constructor; [exact Hs|]. apply Forall_map.
      eapply Forall_impl; [|exact Hsplit]. intros m [_ Hm]. exact Hm.
    + constructor.
      * apply next_id_fresh.
      * eapply Forall_impl; [|exact Hsplit]. intros m [Hm _]. exact Hm.
Qed.

(** C6: after any sequence of [add_message] calls on any table, the
    rows written are the calls in order, their ids strictly increase in
    call order and are pairwise different, every new id is larger than
    every id already in the table, and the rows that were in the table
    are still there with their ids. *)
Theorem C6_ids_strictly_increasing
    (calls : list (clock * (string * string))) (tbl : Store.Table) :
  exists new,
    add_messages calls tbl = (tbl ++ new)%list /\
    map (fun m => (Store.name m, Store.message m)) new = map snd calls /\
    StronglySorted Z.lt (map Store.id new) /\
    NoDup (map Store.id new) /\
    Forall (fun m => Forall (fun old => Store.id old < Store.id m) tbl) new.
Proof.
  destruct (add_messages_appends calls tbl) as (new & H1 & H2 & H3 & H4).
  exists new. repeat split; auto.
  apply StronglySorted_lt_NoDup. exact H3.
Qed.

(* ================================================================== *)
(** * Timestamps *)

Fixpoint follows (cs : list Py.char_class) (s : string) : bool :=
  match cs, s with
  | [], EmptyString => true
  | k :: cs', String c s' => k c && follows cs' s'
  | _, _ => false
  end.

(** The layout [YYYY-MM-DD HH:MM:SS AM/PM] followed by the zone label. *)
Definition timestamp_shape (s : string) : bool :=
  follows
    [Py.is_digit; Py.is_digit; Py.is_digit; Py.is_digit; Py.one "-";
     Py.is_digit; Py.is_digit; Py.one "-";
     Py.is_digit; Py.is_digit; Py.one " ";
     Py.is_digit; Py.is_digit; Py.one ":";
     Py.is_digit; Py.is_digit; Py.one ":";
     Py.is_digit; Py.is_digit; Py.one " ";
     (fun c => Py.one "A" c || Py.one "P" c); Py.one "M"; Py.one " ";
     Py.one "P"; Py.one "S"; Py.one "T"] s.

Lemma zfill2_digits n :
  0 <= n <= 99 ->
  Py.is_digit (Py.digit_char (n / 10)) = true /\
  Py.is_digit (Py.digit_char (n mod 10)) = true.
Proof.
  intros H. split; apply digit_char_is_digit; Z.div_mod_to_equations; lia.
Qed.

Lemma strftime_shape (d : Py.datetime) :
  Py.valid_datetime d = true ->
  timestamp_shape (Py.strftime d TIMESTAMP_FMT) = true.
Proof.
  intros Hv. apply fields_ok_ranges in Hv.
  destruct Hv as (Hy & Hmo & Hd & Hh & Hmi & Hs & _).
  pose proof (hour12_range _ Hh) as HI.
  rewrite strftime_timestamp. unfold timestamp_shape, Py.zfill4, Py.zfill2.
  cbn [follows String.append].
  destruct (zfill2_digits (Py.year d mod 100)) as [-> ->];
    [Z.div_mod_to_equations; lia|].
  destruct (zfill2_digits (Py.month d)) as [-> ->]; [lia|].
  destruct (zfill2_digits (Py.day d)) as [-> ->]; [lia|].
  destruct (zfill2_digits (Py.hour12 (Py.hour d))) as [-> ->]; [lia|].
  destruct (zfill2_digits (Py.minute d)) as [-> ->]; [lia|].
  destruct (zfill2_digits (Py.second d)) as [-> ->]; [lia|].
  rewrite !digit_char_is_digit by (Z.div_mod_to_equations; lia).
  unfold am_pm. destruct (Py.hour d <? 12); reflexivity.
Qed.

(** C8: the row [add_message] writes carries the reading of the
    Pacific clock at the call, laid out as [YYYY-MM-DD HH:MM:SS AM/PM
    PST]; the string reads back as that wall-clock time to the second,
    and neither the submitted strings nor the clock of another zone
    have any part in it. *)
Theorem C8_timestamp_written_by_server
    (now : clock) (tbl : Store.Table) (name message : string) :
  Py.valid_datetime (now "US/Pacific") = true ->
  exists row,
    add_message now tbl name message = (tbl ++ [row])%list /\
    Store.timestamp row = Py.strftime (now "US/Pacific") TIMESTAMP_FMT /\
    timestamp_shape (Store.timestamp row) = true /\
    ts_key row = Ok (whole_second (now "US/Pacific")) /\
    (forall name' message',
       map Store.timestamp (add_message now tbl name' message')
       = map Store.timestamp (add_message now tbl name message)) /\
    (forall now' : clock,
       now' "US/Pacific" = now "US/Pacific" ->
       add_message now' tbl name message = add_message now tbl name message).
Proof.
  intros Hv. exists (new_row now tbl name message).
  split; [reflexivity|]. split; [reflexivity|].
  split; [apply strftime_shape; exact Hv|].
  split; [apply strptime_strftime; exact Hv|].
  split.
  - intros name' message'. rewrite !add_message_appends, !map_app.
    reflexivity.
  - intros now' H. unfold add_message, get_pst_time. rewrite H. reflexivity.
Qed.

Lemma C8_timestamp_written_by_server_witness :
  exists row,
    add_message pdt_0130 [w1] "Ann" "hi" = [w1; row] /\
    Store.timestamp row = "2024-11-03 01:30:00 AM PST" /\
    timestamp_shape (Store.timestamp row) = true.
Proof.
  destruct (C8_timestamp_written_by_server pdt_0130 [w1] "Ann" "hi")
    as (row & H1 & H2 & H3 & _).
  - reflexivity.
  - exists row. split; [exact H1|]. split; [exact H2|exact H3].
Defined.

(* ================================================================== *)
(** * The message list *)

(** C9: the empty list gives the placeholder, a container with one
    paragraph; a list that is not empty gives one fragment per message,
    in the order of the list, whose strings are the name, the message
    and the timestamp of that message. *)
Theorem C9_message_list_fragments (m : Store.Message) (l : list Store.Message) :
  create_message_list []
  = Html.Div [Html.P [Html.Text "No messages yet. Be the first to say hi!"] []]
      [("id", Html.AStr "message-list"); ("cls", Html.AStr "empty-state")]
  /\ List.length (Html.children (create_message_list [])) = 1%nat
  /\ Html.texts (create_message_list [])
     = ["No messages yet. Be the first to say hi!"]
  /\ List.length (Html.children (create_message_list (m :: l)))
     = List.length (m :: l)
  /\ map Html.texts (Html.children (create_message_list (m :: l)))
     = map (fun msg => [Store.name msg ++ ": "; Store.message msg;
                        Store.timestamp msg]) (m :: l).
Proof.
  split; [reflexivity|]. split; [reflexivity|]. split; [reflexivity|].
  unfold create_message_list, Html.Div, Html.children.
  split.
  - apply length_map.
  - rewrite map_map. apply map_ext. intros msg. reflexivity.
Qed.

(* ================================================================== *)
(** * Escaping *)

Fixpoint count_char (c : ascii) (s : string) : nat :=
  match s with
  | EmptyString => 0
  | String a s' => (if Ascii.eqb a c then 1 else 0) + count_char c s'
  end.

(** [needle in hay]. *)
Fixpoint contains (needle hay : string) : bool :=
  String.prefix needle hay ||
  match hay with
  | EmptyString => false
  | String _ hay' => contains needle hay'
  end.

(** The characters that open or close markup or an attribute value. *)
Definition markup_char (c : ascii) : bool :=
  Ascii.eqb c "<" || Ascii.eqb c ">" || Ascii.eqb c Html.dquote
  || Ascii.eqb c "'".

Lemma count_char_app c s1 s2 :
  count_char c (s1 ++ s2) = (count_char c s1 + count_char c s2)%nat.
Proof. induction s1 as [|a s1 IH]; simpl; [reflexivity|]. rewrite IH. lia. Qed.

Lemma count_char_concat c (ss : list string) :
  count_char c (String.concat EmptyString ss) = list_sum (map (count_char c) ss).
Proof.
  induction ss as [|s ss IH]; [reflexivity|].
  destruct ss as [|s' ss].
  - simpl. lia.
  - change (String.concat EmptyString (s :: s' :: ss))
      with (s ++ EmptyString ++ String.concat EmptyString (s' :: ss)).
    rewrite !count_char_app, IH. reflexivity.
Qed.

Lemma count_char_escape c s :
  markup_char c = true -> count_char c (Html.escape s) = 0%nat.
Proof.
  intros Hc. induction s as [|a s IH]; [reflexivity|].
  cbn [Html.escape]. rewrite count_char_app, IH, Nat.add_0_r.
  unfold markup_char in Hc.
  rewrite !orb_true_iff in Hc. rewrite !Ascii.eqb_eq in Hc.
  destruct Hc as [[[-> | ->] | ->] | ->];
    destruct a as [[] [] [] [] [] [] [] []]; reflexivity.
Qed.

(** The fragment of one message, as [create_message_list] builds it. *)
Definition message_fragment (msg : Store.Message) : Html.FT :=
  Html.Div
    [Html.Div
       [Html.Span [Html.Text (Store.name msg ++ ": ")]
          [("cls", Html.AStr "message-name")];
        Html.Span [Html.Text (Store.message msg)]
          [("cls", Html.AStr "message-text")];
        Html.Small [Html.Text (Store.timestamp msg)]
          [("cls", Html.AStr "message-timestamp")]]
       [("cls", Html.AStr "message-content")]]
    [("cls", Html.AStr "message")].

Lemma create_message_list_cons m l :
  create_message_list (m :: l)
  = Html.Div (map message_fragment (m :: l))
      [("id", Html.AStr "message-list"); ("cls", Html.AStr "message-list")].
Proof. reflexivity. Qed.

Definition open_tag (tag : string) (kw : Html.attrs) : string :=
  "<" ++ tag ++ String.concat EmptyString (map Html.render_attr kw) ++ ">".

Definition close_tag (tag : string) : string := "</" ++ tag ++ ">".

Lemma count_char_element c tag cs kw :
  count_char c (Html.to_xml (Html.Element tag cs kw))
  = (count_char c (open_tag tag kw)
     + if Html.is_void tag then 0
       else list_sum (map (fun e => count_char c (Html.to_xml e)) cs)
            + count_char c (close_tag tag))%nat.
Proof.
  cbn [Html.to_xml]. unfold open_tag, close_tag.
  rewrite !count_char_app.
  destruct (Html.is_void tag).
  - simpl. lia.
  - rewrite !count_char_app, !count_char_concat, !map_map. lia.
Qed.

Lemma count_char_text c s :
  markup_char c = true -> count_char c (Html.to_xml (Html.Text s)) = 0%nat.
Proof. intros H. cbn [Html.to_xml]. apply count_char_escape. exact H. Qed.

(** A row without text. *)
Definition blank : Store.Message := Store.mkMessage 0 EmptyString EmptyString EmptyString.

(** The markup characters of a fragment do not depend on the strings
    of the message. *)
Lemma count_char_fragment c msg :
  markup_char c = true ->
  count_char c (Html.to_xml (message_fragment msg))
  = count_char c (Html.to_xml (message_fragment blank)).
Proof.
  intros Hc.
  unfold message_fragment, Html.Div, Html.Span, Html.Small.
  repeat (rewrite count_char_element; cbn [map list_sum Html.is_void]).
  rewrite !count_char_text by exact Hc.
  reflexivity.
Qed.

Lemma count_char_fragments c (msgs : list Store.Message) :
  markup_char c = true ->
  list_sum (map (fun e => count_char c (Html.to_xml e))
              (map message_fragment msgs))
  = (List.length msgs
     * count_char c (Html.to_xml (message_fragment blank)))%nat.
Proof.
  intros Hc. induction msgs as [|m l IH]; [reflexivity|].
  change (list_sum (map (fun e => count_char c (Html.to_xml e))
                      (map message_fragment (m :: l))))
    with (count_char c (Html.to_xml (message_fragment m))
          + list_sum (map (fun e => count_char c (Html.to_xml e))
                        (map message_fragment l)))%nat.
  rewrite IH, count_char_fragment by exact Hc.
  cbn [List.length]. lia.
Qed.

Lemma count_char_message_list c m l :
  markup_char c = true ->
  count_char c (Html.to_xml (create_message_list (m :: l)))
  = (count_char c
       (open_tag "div" [("id", Html.AStr "message-list");
                        ("cls", Html.AStr "message-list")])
     + List.length (m :: l)
       * count_char c (Html.to_xml (message_fragment blank))
     + count_char c (close_tag "div"))%nat.
Proof.
  intros Hc. rewrite create_message_list_cons. unfold Html.Div.
  rewrite count_char_element. change (Html.is_void "div") with false.
  cbv iota. rewrite count_char_fragments by exact Hc. lia.
Qed.

Definition script_name : string := "<script>alert(1)</script>".

Definition script_row : Store.Message :=
  Store.mkMessage 1 script_name "hi" "2024-11-03 01:30:00 AM PST".

(** C7: in the rendering of a message list the strings of the messages
    go through [escape], which leaves none of the characters [<], [>],
    the double quote and the apostrophe; so the list of n messages has
    the 2 + 10 n opening and closing angle brackets of its own tags
    and no other, whatever the messages say.  For the name
    [<script>alert(1)</script>] the rendering shows the name with its
    brackets written as entities and contains no [<script>]. *)
Theorem C7_user_text_is_escaped (m : Store.Message) (l : list Store.Message) :
  (forall c s, markup_char c = true -> count_char c (Html.escape s) = 0%nat)
  /\ count_char "<" (Html.to_xml (create_message_list (m :: l)))
     = (2 + 10 * List.length (m :: l))%nat
  /\ count_char ">" (Html.to_xml (create_message_list (m :: l)))
     = (2 + 10 * List.length (m :: l))%nat
  /\ (forall c, markup_char c = true ->
        count_char c (Html.to_xml (create_message_list (m :: l)))
        = count_char c
            (Html.to_xml (create_message_list (map (fun _ => blank) (m :: l)))))
  /\ Html.escape (script_name ++ ": ")
     = "&lt;script&gt;alert(1)&lt;/script&gt;: "
  /\ contains "&lt;script&gt;alert(1)&lt;/script&gt;: "
       (Html.to_xml (create_message_list [script_row])) = true
  /\ contains "<script>" (Html.to_xml (create_message_list [script_row]))
     = false.
Proof.
  split; [intros c s Hc; apply count_char_escape; exact Hc|].
  split; [rewrite count_char_message_list by reflexivity;
          change (count_char "<" (open_tag _ _)) with 1%nat;
          change (count_char "<" (close_tag _)) with 1%nat;
          change (count_char "<" (Html.to_xml (message_fragment blank)))
            with 10%nat; lia|].
  split; [rewrite count_char_message_list by reflexivity;
          change (count_char ">" (open_tag _ _)) with 1%nat;
          change (count_char ">" (close_tag _)) with 1%nat;
          change (count_char ">" (Html.to_xml (message_fragment blank)))
            with 10%nat; lia|].
  split.
  - intros c Hc. cbn [map].
    rewrite !count_char_message_list by exact Hc.
    cbn [List.length]. rewrite length_map. reflexivity.
  - repeat split; vm_compute; reflexivity.
Qed.

Lemma C7_user_text_is_escaped_witness :
  count_char "<" (Html.escape script_name) = 0%nat
  /\ count_char "<" (Html.to_xml (create_message_list [script_row; w1]))
     = count_char "<" (Html.to_xml (create_message_list [blank; blank])).
Proof.
  destruct (C7_user_text_is_escaped script_row [w1]) as (H1 & _ & _ & H4 & _).
  split.
  - apply H1. reflexivity.
  - apply (H4 "<"%char). reflexivity.
Defined.

(* ================================================================== *)
(** * A session *)

(** From an empty table: the page shows the placeholder and a counter
    of 0; the first submission is written but answered with the
    exception, and so is the refresh that follows. *)
Example empty_then_one_submission :
  let now := reading (Py.mkdatetime 2024 3 9 17 4 5 0 (Some (-28800))) in
  let ann := Store.mkMessage 1 "Ann" "hi" "2024-03-09 05:04:05 PM PST" in
  fst (run [(now, GET_index)] []) = []
  /\ (exists title main,
        snd (get []) = Ok (title, main) /\
        Html.texts main
        = ["✍️ Guestbook"; "Name:"; "Message:"; "Submit"; "🪵 log";
           "0 guests have said hi so far "; "👋";
           "No messages yet. Be the first to say hi!";
           "made with ❤️ by "; "author"])
  /\ post now "Ann" "hi" [] = ([ann], Raise Store.not_subscriptable)
  /\ get_update_messages [ann] = ([ann], Raise Store.not_subscriptable).
Proof.
  split; [reflexivity|].
  split; [eexists; eexists; split; vm_compute; reflexivity|].
  repeat split; vm_compute; reflexivity.
Qed.

(* ================================================================== *)
(** * Further properties of the program *)

(** ** What a timestamp records *)

Lemma strftime_whole_second (d : Py.datetime) :
  Py.strftime d TIMESTAMP_FMT = Py.strftime (whole_second d) TIMESTAMP_FMT.
Proof. reflexivity. Qed.

(** X4: two readings of the clock give the same timestamp exactly when
    they show the same wall-clock second: the microsecond and the
    offset from UTC are not recorded, everything else is. *)
Theorem timestamp_identifies_second (d d' : Py.datetime) :
  Py.valid_datetime d = true ->
  Py.valid_datetime d' = true ->
  (Py.strftime d TIMESTAMP_FMT = Py.strftime d' TIMESTAMP_FMT
   <-> whole_second d = whole_second d').
Proof.
  intros Hv Hv'. split.
  - intros H.
    pose proof (strptime_strftime d Hv) as H1.
    pose proof (strptime_strftime d' Hv') as H2.
    rewrite H in H1. congruence.
  - intros H.
    rewrite (strftime_whole_second d), (strftime_whole_second d'), H.
    reflexivity.
Qed.

Lemma timestamp_identifies_second_witness :
  Py.strftime (Py.mkdatetime 2024 7 4 9 30 15 100000 (Some (-25200)))
    TIMESTAMP_FMT
  = Py.strftime (Py.mkdatetime 2024 7 4 9 30 15 900000 (Some (-28800)))
      TIMESTAMP_FMT.
Proof.
  apply (timestamp_identifies_second
           (Py.mkdatetime 2024 7 4 9 30 15 100000 (Some (-25200)))
           (Py.mkdatetime 2024 7 4 9 30 15 900000 (Some (-28800)))).
  - reflexivity.
  - reflexivity.
  - reflexivity.
Defined.

(** ** Once a row is stored *)

(** X5: once the table holds a row, no route answers: whatever is
    requested after a run of requests that started on a table with a
    row or contained a submission, the handler raises.  Rows are never
    removed, so this does not change again. *)
Theorem no_answer_once_a_row_is_stored
    (reqs : list (clock * request)) (tbl : Store.Table)
    (now : clock) (req : request) :
  (0 < List.length tbl + submissions reqs)%nat ->
  snd (handle now req (fst (run reqs tbl))) = Raise Store.not_subscriptable.
Proof.
  intros Hpos.
  destruct (run_appends reqs tbl) as (added & -> & Hlen).
  assert (Hne : exists m tl, (tbl ++ added)%list = m :: tl).
  { destruct tbl as [|m tl]; [|simpl; eauto].
    destruct added as [|m tl]; [simpl in *; lia|simpl; eauto]. }
  destruct Hne as (m & tl & ->).
  destruct req as [|name message|]; unfold handle.
  - unfold get. rewrite get_all_messages_cons. reflexivity.
  - unfold post. rewrite add_message_appends.
    change ((m :: tl) ++ [new_row now (m :: tl) name message])%list
      with (m :: (tl ++ [new_row now (m :: tl) name message]))%list.
    rewrite get_all_messages_cons. reflexivity.
  - unfold get_update_messages. rewrite get_all_messages_cons. reflexivity.
Qed.

Lemma no_answer_once_a_row_is_stored_witness :
  snd (handle noon GET_index
         (fst (run [(pst_0110, GET_update_messages);
                    (pst_0140, POST_submit_message "Ann" "hi")] [])))
  = Raise Store.not_subscriptable.
Proof.
  apply (no_answer_once_a_row_is_stored
           [(pst_0110, GET_update_messages);
            (pst_0140, POST_submit_message "Ann" "hi")] [] noon GET_index).
  vm_compute. constructor.
Defined.

(** ** A submission into a table that does not read *)

(** X6: when a stored timestamp does not parse, [post] raises after it
    has written: the table holds the submitted row although the request
    failed, and a second attempt stores the message a second time. *)
Theorem post_writes_before_raising
    (now : clock) (name message : string) (tbl : Store.Table) :
  Exists (fun m => parses m = false) tbl ->
  exists e e' row row',
    post now name message tbl = ((tbl ++ [row])%list, Raise e) /\
    post now name message (tbl ++ [row])%list
    = ((tbl ++ [row; row'])%list, Raise e') /\
    Store.name row = name /\ Store.message row = message /\
    Store.name row' = name /\ Store.message row' = message.
Proof.
  intros _.
  exists Store.not_subscriptable, Store.not_subscriptable,
    (new_row now tbl name message),
    (new_row now (tbl ++ [new_row now tbl name message])%list name message).
  unfold post.
  rewrite !add_message_appends, !get_all_messages_snoc, <- app_assoc.
  repeat split.
Qed.

Lemma post_writes_before_raising_witness :
  exists e row,
    post pst_0110 "Ann" "hi" [corrupt] = ([corrupt; row], Raise e) /\
    Store.name row = "Ann".
Proof.
  destruct (post_writes_before_raising pst_0110 "Ann" "hi" [corrupt])
    as (e & _ & row & _ & H1 & _ & H2 & _).
  - apply Exists_cons_hd. vm_compute. reflexivity.
  - exists e, row. split; [exact H1 | exact H2].
Defined.

(** ** The empty table *)

(** X7: the refresh and the page answer on the empty table and on no
    other: there the refresh returns the container with the counter of
    0 and the placeholder, on a table with a row both raise; the table
    is returned as it was. *)
Theorem refresh_answers_on_the_empty_table_only (tbl : Store.Table) :
  get_update_messages tbl
  = (tbl,
     match tbl with
     | [] =>
         Ok (Html.Div
               [create_guest_counter 0; create_message_list []]
               [("id", Html.AStr "update-area");
                ("hx_get", Html.AStr "/update-messages");
                ("hx_trigger", Html.AStr "every 10s")])
     | _ :: _ => Raise Store.not_subscriptable
     end)
  /\ fst (get tbl) = tbl
  /\ is_ok (snd (get tbl)) = match tbl with [] => true | _ :: _ => false end
  /\ Html.texts (create_guest_counter 0)
     = ["0 guests have said hi so far "; "👋"]
  /\ Html.texts (create_message_list [])
     = ["No messages yet. Be the first to say hi!"].
Proof.
  destruct tbl as [|m tl].
  - repeat split.
  - unfold get, get_update_messages. rewrite get_all_messages_cons.
    repeat split.
Qed.

(** ** The page *)

(** X9: the page [get] returns and the fragment [get_update_messages]
    returns agree on every table: both raise the same exception, or the
    fourth child of the page's [Main] is that fragment; neither
    changes the table.  The form of the page posts to [/submit-message]
    and names as its target the id of that container. *)
Theorem index_embeds_refresh_fragment (tbl : Store.Table) :
  fst (get tbl) = fst (get_update_messages tbl) /\
  match snd (get tbl), snd (get_update_messages tbl) with
  | Ok (title, main), Ok frag =>
      title = Html.Title [Html.Text "Simple Guestbook"] [] /\
      List.length (Html.children main) = 5%nat /\
      nth_error (Html.children main) 3 = Some frag /\
      exists form,
        nth_error (Html.children main) 1 = Some form /\
        Html.lookup "hx_post" (Html.kwargs form)
        = Some (Html.AStr "/submit-message") /\
        match Html.lookup "id" (Html.kwargs frag) with
        | Some (Html.AStr i) =>
            Html.lookup "hx_target" (Html.kwargs form)
            = Some (Html.AStr ("#" ++ i))
        | _ => False
        end
  | Raise e, Raise e' => e = e'
  | _, _ => False
  end.
Proof.
  unfold get, get_update_messages.
  destruct (get_all_messages tbl) as [all|e]; cbn [fst snd].
  - split; [reflexivity|]. split; [reflexivity|]. split; [reflexivity|].
    split; [reflexivity|]. eexists. split; [reflexivity|].
    split; reflexivity.
  - split; reflexivity.
Qed.

(* ================================================================== *)
(** * Wall-clock time and instants *)

(** Days before 1 January of year [y + 1], up to a constant. *)
Definition year_days (y : Z) : Z := 365 * y + y / 4 - y / 100 + y / 400.

Lemma days_from_civil_year_days y m d :
  Py.days_from_civil y m d
  = year_days (if m <=? 2 then y - 1 else y)
    + (153 * ((m + 9) mod 12) + 2) / 5 + d - 719469.
Proof.
  unfold Py.days_from_civil, year_days.
  set (Y := if m <=? 2 then y - 1 else y).
  set (doy := (153 * ((m + 9) mod 12) + 2) / 5).
  clearbody Y doy. Z.div_mod_to_equations; lia.
Qed.

Lemma year_days_step y :
  year_days y = year_days (y - 1) + 365 + (if Py.is_leap y then 1 else 0).
Proof.
  unfold year_days, Py.is_leap.
  destruct (Z.eqb_spec (y mod 4) 0); destruct (Z.eqb_spec (y mod 100) 0);
    destruct (Z.eqb_spec (y mod 400) 0); cbn [andb orb negb];
    Z.div_mod_to_equations; lia.
Qed.

Lemma year_days_mono a b : a <= b -> year_days a <= year_days b.
Proof.
  intros H. replace b with (a + Z.of_nat (Z.to_nat (b - a))) by lia.
  generalize (Z.to_nat (b - a)) as n. clear H b.
  induction n as [|n IH].
  - change (Z.of_nat 0) with 0. rewrite Z.add_0_r. lia.
  - rewrite Nat2Z.inj_succ.
    pose proof (year_days_step (a + Z.succ (Z.of_nat n))) as Hs.
    replace (a + Z.succ (Z.of_nat n) - 1) with (a + Z.of_nat n) in Hs by lia.
    destruct (Py.is_leap (a + Z.succ (Z.of_nat n))); lia.
Qed.

Ltac enum_month m :=
  destruct m as [|m|m]; try lia; try enum_pos m.

(** Later dates of the calendar have larger day numbers. *)
Lemma days_from_civil_mono y m d y2 m2 d2 :
  1 <= m <= 12 -> 1 <= d <= Py.days_in_month y m ->
  1 <= m2 <= 12 -> 1 <= d2 <= Py.days_in_month y2 m2 ->
  y < y2 \/ (y = y2 /\ (m < m2 \/ (m = m2 /\ d < d2))) ->
  Py.days_from_civil y m d < Py.days_from_civil y2 m2 d2.
Proof.
  intros Hm Hd Hm2 Hd2 Hlt.
  rewrite !days_from_civil_year_days.
  pose proof (year_days_step y) as Sy.
  pose proof (year_days_step y2) as Sy2.
  unfold Py.days_in_month in Hd, Hd2.
  destruct (Py.is_leap y), (Py.is_leap y2);
  destruct Hlt as [Hlt | [-> Hlt]].
  all: try (assert (Hmono : year_days y <= year_days (y2 - 1))
              by (apply year_days_mono; lia)).
  all: enum_month m; enum_month m2; cbn in *; lia.
Qed.

(** Seconds of the wall clock since 1970-01-01 00:00:00. *)
Definition civil_seconds (d : Py.datetime) : Z :=
  Py.days_from_civil (Py.year d) (Py.month d) (Py.day d) * 86400
  + Py.hour d * 3600 + Py.minute d * 60 + Py.second d.

Lemma instant_civil_seconds (d : Py.datetime) :
  Py.instant d
  = (civil_seconds d
     - match Py.utcoffset d with Some o => o | None => 0 end) * 1000000
    + Py.microsecond d.
Proof. unfold Py.instant, civil_seconds. lia. Qed.

Lemma fields_ok_date y mo d h mi s us :
  Py.fields_ok y mo d h mi s us = true ->
  1 <= mo <= 12 /\ 1 <= d <= Py.days_in_month y mo /\
  0 <= h <= 23 /\ 0 <= mi <= 59 /\ 0 <= s <= 59 /\ 0 <= us <= 999999.
Proof.
  unfold Py.fields_ok. rewrite !andb_true_iff, !Z.leb_le.
  intros H. decompose [and] H; clear H. lia.
Qed.

Lemma whole_second_lt_seconds (a b : Py.datetime) :
  Py.valid_datetime a = true -> Py.valid_datetime b = true ->
  Py.dt_lt (whole_second a) (whole_second b) ->
  civil_seconds a < civil_seconds b.
Proof.
  destruct a as [y mo d h mi s us off], b as [y2 mo2 d2 h2 mi2 s2 us2 off2].
  unfold Py.valid_datetime, Py.dt_lt, Py.dt_compare, Py.fields, whole_second,
    civil_seconds.
  cbn [Py.year Py.month Py.day Py.hour Py.minute Py.second Py.microsecond
       Py.lex_compare].
  intros Ha Hb.
  apply fields_ok_date in Ha, Hb.
  destruct Ha as (Hmo & Hd & Hh & Hmi & Hs & _).
  destruct Hb as (Hmo2 & Hd2 & Hh2 & Hmi2 & Hs2 & _).
  destruct (Z.compare_spec y y2) as [->|Hy|Hy]; try discriminate.
  - destruct (Z.compare_spec mo mo2) as [->|Hm|Hm]; try discriminate.
    + destruct (Z.compare_spec d d2) as [->|Hdd|Hdd]; try discriminate.
      * destruct (Z.compare_spec h h2) as [->|Hhh|Hhh]; try discriminate;
          [|intros _; lia].
        destruct (Z.compare_spec mi mi2) as [->|Hmm|Hmm]; try discriminate;
          [|intros _; lia].
        destruct (Z.compare_spec s s2) as [->|Hss|Hss]; try discriminate;
          intros _; lia.
      * intros _.
        pose proof (days_from_civil_mono y2 mo2 d y2 mo2 d2). lia.
    + intros _. pose proof (days_from_civil_mono y2 mo d y2 mo2 d2). lia.
  - intros _. pose proof (days_from_civil_mono y mo d y2 mo2 d2). lia.
Qed.

Lemma whole_second_eq_seconds (a b : Py.datetime) :
  Py.dt_compare (whole_second a) (whole_second b) = Eq ->
  civil_seconds a = civil_seconds b.
Proof.
  unfold Py.dt_compare. intros H. apply lex_compare_eq in H.
  unfold Py.fields, whole_second in H. cbn in H.
  unfold civil_seconds. inversion H. congruence.
Qed.

(** Within one offset from UTC, readings at least a second apart have
    wall-clock seconds in the same order. *)
Lemma spaced_readings_lt (d d' : Py.datetime) :
  Py.valid_datetime d = true -> Py.valid_datetime d' = true ->
  Py.utcoffset d = Py.utcoffset d' ->
  Py.instant d + 1000000 <= Py.instant d' ->
  Py.dt_lt (whole_second d) (whole_second d').
Proof.
  intros Hv Hv' Hoff Hsp.
  rewrite !instant_civil_seconds, Hoff in Hsp.
  pose proof (fields_ok_date _ _ _ _ _ _ _ Hv) as (_ & _ & _ & _ & _ & Hus).
  pose proof (fields_ok_date _ _ _ _ _ _ _ Hv') as (_ & _ & _ & _ & _ & Hus').
  unfold Py.dt_lt.
  destruct (Py.dt_compare (whole_second d) (whole_second d')) eqn:Hc.
  - apply whole_second_eq_seconds in Hc. lia.
  - reflexivity.
  - assert (Hlt : Py.dt_lt (whole_second d') (whole_second d)).
    { unfold Py.dt_lt, Py.dt_compare in *.
      rewrite (lex_compare_antisym (Py.fields (whole_second d))), Hc.
      reflexivity. }
    apply whole_second_lt_seconds in Hlt; [lia | assumption | assumption].
Qed.

(** ** Submissions at least a second apart *)

Lemma StronglySorted_map_iff {A B : Type} (f : A -> B) (R : B -> B -> Prop)
    (l : list A) :
  StronglySorted R (map f l) <-> StronglySorted (fun a b => R (f a) (f b)) l.
Proof.
  induction l as [|x tl IH]; simpl.
  - split; constructor.
  - split; intros H; inversion H as [|? ? Hs Hx]; subst; constructor;
      try (apply IH; assumption).
    + rewrite Forall_map in Hx. exact Hx.
    + rewrite Forall_map. exact Hx.
Qed.

Lemma StronglySorted_with_Forall {A : Type} (P : A -> Prop)
    (R : A -> A -> Prop) (l : list A) :
  Forall P l -> StronglySorted R l ->
  StronglySorted (fun a b => P a /\ P b /\ R a b) l.
Proof.
  intros HP HS. induction HS as [|x tl Hs IH Hx]; [constructor|].
  inversion HP as [|? ? Hpx Hptl]; subst.
  constructor; [apply IH; exact Hptl|].
  rewrite Forall_forall in *. intros y Hy. auto.
Qed.

Lemma StronglySorted_impl {A : Type} (R R' : A -> A -> Prop) (l : list A) :
  (forall a b, R a b -> R' a b) ->
  StronglySorted R l -> StronglySorted R' l.
Proof.
  intros Himp. induction 1 as [|x tl Hs IH Hx]; constructor; auto.
  eapply Forall_impl; [|exact Hx]. intros; auto.
Qed.

Lemma add_messages_timestamps calls tbl :
  map Store.timestamp (add_messages calls tbl)
  = (map Store.timestamp tbl
     ++ map (fun c => Py.strftime (get_pst_time (fst c)) TIMESTAMP_FMT) calls)%list.
Proof.
  revert tbl. induction calls as [|[now [name message]] tl IH]; intros tbl.
  - simpl. rewrite app_nil_r. reflexivity.
  - unfold add_messages. cbn [fold_left fst snd].
    fold (add_messages tl (add_message now tbl name message)).
    rewrite IH, add_message_appends, map_app, <- app_assoc. reflexivity.
Qed.

(** The second call is made under the same offset from UTC and at
    least one second after the first. *)
Definition spaced (c c' : clock * (string * string)) : Prop :=
  Py.utcoffset (get_pst_time (fst c)) = Py.utcoffset (get_pst_time (fst c'))
  /\ Py.instant (get_pst_time (fst c)) + 1000000
     <= Py.instant (get_pst_time (fst c')).

Lemma spaced_trans a b c : spaced a b -> spaced b c -> spaced a c.
Proof. unfold spaced. intros [H1 H2] [H3 H4]. split; [congruence | lia]. Qed.

(** X10: messages written one after the other into an empty table,
    each at least a second after the one before and all under one
    offset from UTC, carry timestamps in the order of insertion: the
    timestamp of every row parses to a strictly later time than that
    of every row written before it. *)
Theorem spaced_insertions_timestamps_increase
    (calls : list (clock * (string * string))) :
  Forall (fun c => Py.valid_datetime (get_pst_time (fst c)) = true) calls ->
  Sorted spaced calls ->
  StronglySorted (fun a b => strictly_newer b a) (add_messages calls []).
Proof.
  intros Hv Hs.
  apply (StronglySorted_map_iff Store.timestamp
           (fun s s' =>
              exists k' k,
                Py.strptime s' TIMESTAMP_FMT = Ok k' /\
                Py.strptime s TIMESTAMP_FMT = Ok k /\ Py.dt_lt k k')).
  rewrite add_messages_timestamps. cbn [map app].
  apply StronglySorted_map_iff.
  apply Sorted_StronglySorted in Hs; [|exact spaced_trans].
  eapply StronglySorted_impl;
    [|apply (StronglySorted_with_Forall _ _ _ Hv Hs)].
  intros c c' (Hc & Hc' & Hoff & Hsp). cbv beta in Hc, Hc'.
  exists (whole_second (get_pst_time (fst c'))),
         (whole_second (get_pst_time (fst c))).
  split; [apply strptime_strftime; exact Hc'|].
  split; [apply strptime_strftime; exact Hc|].
  apply spaced_readings_lt; assumption.
Qed.

Lemma spaced_insertions_timestamps_increase_witness :
  StronglySorted (fun a b => strictly_newer b a) [tm1; tm2; tm3].
Proof.
  apply (spaced_insertions_timestamps_increase
           [(morning 57 900000, ("a", "x"));
            (morning 58 900000, ("b", "y"));
            (noon, ("c", "z"))]).
  - repeat constructor.
  - repeat constructor; vm_compute; discriminate.
Defined.
